(** * Vendor comparison and scoring: [compare_vendors] of [project.py]

    A shallow embedding of the comparison engine of the procurement tracker
    and the properties of its specification.

    Numbers.  The specification states the scoring formula over real
    numbers.  The formula and its properties (the factors, their ranges,
    monotonicity, the two copies of the formula) are embedded over the exact
    rationals [Q]: [/] is true division, the decimal literals [0.4], [0.2],
    [0.1] are the rationals they denote, and [round(x, 1)] rounds the exact
    value to the nearest tenth, ties to even.  Equality of numbers is [Qeq]
    ([==]).

    The Python code computes with [float] values.  What it prints in a row
    and whom it recommends depends on the rounding of binary64 arithmetic:
    two keys that are equal as real numbers can differ as floats, a halfway
    case such as 8.35 is rounded as the float nearest to it lies, and a key
    can be NaN.  [Module Binary64] embeds the comparison over the primitive
    binary64 floats; the properties of the printed rows and of the
    recommendation are stated there.

    State.  The function reads the vendor file and writes to the console; it
    is embedded in a state-and-exception monad over a [World] made of the
    contents of [vendors.json] and the objects printed so far.  A record of
    the vendor file is well formed: it has every key that [Vendor.from_dict]
    reads, and its numbers are numbers.

    Further code.  The "Compare Vendors" entry of the menu is embedded over
    the same [World].  The purchase requests (class [Purchase], its store and
    the approval workflow) are embedded in [Module Store], over dicts of JSON
    values and a [Site] that also holds the sources of [uuid4()] and
    [datetime.now()]. *)

From Stdlib Require Import QArith Qround ZArith List String Bool Lia Lqa.
From Stdlib Require Import DecimalString.
From Stdlib Require Floats.
Import ListNotations.

Open Scope string_scope.
Open Scope list_scope.
Open Scope Q_scope.

(* ================================================================== *)
(** * Data model *)

(** A review is a dict; the engine reads only its ['rating'] key, through
    [review.get('rating', 0)], so the key may be absent.  A rating that is
    present is a number. *)
Record Review : Type := mkReview {
  rating : option Q;
  comment : string
}.

(** The attributes of class [Vendor] that [compare_vendors] reads, and [id],
    by which [get_vendor] finds a record. *)
Record Vendor : Type := mkVendor {
  id : string;
  name : string;
  price_rating : Q;
  delivery_time : Q;
  reviews : list Review
}.

Definition with_price_rating (v : Vendor) (p : Q) : Vendor :=
  mkVendor (id v) (name v) p (delivery_time v) (reviews v).

Definition with_delivery_time (v : Vendor) (d : Q) : Vendor :=
  mkVendor (id v) (name v) (price_rating v) d (reviews v).

Definition with_reviews (v : Vendor) (rs : list Review) : Vendor :=
  mkVendor (id v) (name v) (price_rating v) (delivery_time v) rs.

(* ================================================================== *)
(** * Python primitives *)

Module Py.

(** Truth value of a list: [if xs:] holds iff [xs] is not empty. *)
Definition truthy {A : Type} (xs : list A) : bool :=
  match xs with
  | [] => false
  | _ :: _ => true
  end.

(** [a > b] on numbers. *)
Definition gt (a b : Q) : bool :=
  match a ?= b with
  | Gt => true
  | _ => false
  end.

(** [min(a, b)]: the first argument unless the second is strictly
    smaller. *)
Definition min (a b : Q) : Q := if gt a b then b else a.

(** [sum(f(x) for x in xs)]: a left fold from [0]. *)
Definition sum {A : Type} (f : A -> Q) (xs : list A) : Q :=
  fold_left (fun acc x => acc + f x) xs 0.

(** [len(xs)] as a number. *)
Definition len {A : Type} (xs : list A) : Q :=
  inject_Z (Z.of_nat (List.length xs)).

(** Nearest integer, ties to even. *)
Definition round_half_even (q : Q) : Z :=
  let f := Qfloor q in
  match ((q - inject_Z f) ?= 0.5)%Q with
  | Lt => f
  | Gt => (f + 1)%Z
  | Eq => if Z.even f then f else (f + 1)%Z
  end.

(** [round(x, 1)] of an exact value; [Binary64.round1] is [round] on a
    float. *)
Definition round1 (x : Q) : Q := inject_Z (round_half_even (x * 10)) / 10.

(** [max(xs, key=key)] scans from the left and replaces the current best
    only by an item whose key is strictly greater.  Exact keys are totally
    ordered; [Binary64.max_scan] compares floats. *)
Definition max_scan {A : Type} (key : A -> Q) (best : A) (xs : list A) : A :=
  fold_left (fun b x => if gt (key x) (key b) then x else b) xs best.

End Py.

(* ================================================================== *)
(** * The scoring formula, as written in the table loop *)

(** [review.get('rating', 0)] *)
Definition get_rating (review : Review) : Q :=
  match rating review with
  | Some r => r
  | None => 0
  end.

(** [avg_review]: [0] unless [vendor.reviews] is non-empty, then
    [total / len(vendor.reviews)]. *)
Definition avg_review (vendor : Vendor) : Q :=
  if Py.truthy (reviews vendor)
  then let total := Py.sum get_rating (reviews vendor) in
       total / Py.len (reviews vendor)
  else 0.

Definition price_factor (vendor : Vendor) : Q :=
  price_rating vendor / 10 * 0.4.

Definition delivery_factor (vendor : Vendor) : Q :=
  Py.min (delivery_time vendor) 30 / 30 * 0.4.

(** [(5 - avg_review) / 5 * 0.2 if avg_review > 0 else 0.1] *)
Definition review_factor (vendor : Vendor) : Q :=
  if Py.gt (avg_review vendor) 0
  then (5 - avg_review vendor) / 5 * 0.2
  else 0.1.

(** [overall_score] before [round]. *)
Definition raw_score (vendor : Vendor) : Q :=
  10 - ((price_factor vendor + delivery_factor vendor + review_factor vendor) * 10).

(** [overall_score = round(overall_score, 1)] *)
Definition overall_score (vendor : Vendor) : Q :=
  Py.round1 (raw_score vendor).

(* ================================================================== *)
(** * The scoring expression inside the [key] of [max] *)

(** The review term of the key: the formula when [v.reviews] is non-empty,
    [0.1] otherwise. *)
Definition key_review_factor (v : Vendor) : Q :=
  if Py.truthy (reviews v)
  then (5 - (if Py.truthy (reviews v)
             then Py.sum get_rating (reviews v) / Py.len (reviews v)
             else 0)) / 5 * 0.2
  else 0.1.

(** The [lambda v: ...] given to [max], as a formula over exact values;
    [Binary64.key_score] is the float that [max] compares. *)
Definition key_score (v : Vendor) : Q :=
  10 - ((price_rating v / 10 * 0.4)
        + (Py.min (delivery_time v) 30 / 30 * 0.4)
        + key_review_factor v).

(* ================================================================== *)
(** * Console objects *)

(** A table cell is a string built from a value; a cell records which
    conversion made it. *)
Inductive Cell : Type :=
| Text (s : string)        (** a string as it is *)
| Str (x : Q)              (** [str(x)] and [f"{x}"] *)
| Fixed1 (tenths : Z).     (** [f"{x:.1f}"]: [x] to one decimal place *)

(** One decimal place of an exact value; [Binary64.format_1f] formats a
    float. *)
Definition format_1f (x : Q) : Cell := Fixed1 (Py.round_half_even (x * 10)).

Record Table : Type := mkTable {
  title : string;
  columns : list string;
  rows : list (list Cell)
}.

Definition new_table (t : string) : Table := mkTable t [] [].

Definition add_column (table : Table) (header : string) : Table :=
  mkTable (title table) (columns table ++ [header]) (rows table).

Definition add_row (table : Table) (cells : list Cell) : Table :=
  mkTable (title table) (columns table) (rows table ++ [cells]).

(** What [console.print] is given. *)
Inductive Renderable : Type :=
| Markup (s : string)
| TableR (table : Table)
| PanelR (body : string) (panel_title : string) (border_style : string).

(* ================================================================== *)
(** * World, outcomes and the monad of the program *)

Record World : Type := mkWorld {
  vendors_file : list Vendor;     (** the records of [vendors.json] *)
  console : list Renderable       (** everything printed, oldest first *)
}.

(** How a call ends: it returns a value or raises an exception, named by
    its class. *)
Inductive Outcome (A : Type) : Type :=
| Return (a : A)
| Raise (exc : string).
Arguments Return {A} a.
Arguments Raise {A} exc.

Definition M (A : Type) : Type := World -> Outcome A * World.

Definition ret {A : Type} (a : A) : M A := fun w => (Return a, w).

Definition raise {A : Type} (exc : string) : M A := fun w => (Raise exc, w).

Definition bind {A B : Type} (m : M A) (k : A -> M B) : M B :=
  fun w =>
    match m w with
    | (Return a, w') => k a w'
    | (Raise exc, w') => (Raise exc, w')
    end.

Notation "x <- m ;; k" := (bind m (fun x => k))
  (at level 61, m at next level, right associativity).
Notation "m ;; k" := (bind m (fun _ => k))
  (at level 61, right associativity).

(** [load_data(VENDORS_FILE)] *)
Definition load_data : M (list Vendor) :=
  fun w => (Return (vendors_file w), w).

(** [save_data(VENDORS_FILE, data)] *)
Definition save_data (data : list Vendor) : M unit :=
  fun w => (Return tt, mkWorld data (console w)).

(** [console.print(r)] *)
Definition console_print (r : Renderable) : M unit :=
  fun w => (Return tt, mkWorld (vendors_file w) (console w ++ [r])).

(* ================================================================== *)
(** * Vendor store *)

Fixpoint find_vendor (vendors : list Vendor) (vendor_id : string) : option Vendor :=
  match vendors with
  | [] => None
  | v :: rest => if String.eqb (id v) vendor_id then Some v
                 else find_vendor rest vendor_id
  end.

(** [get_vendor]: the first record with the identifier, decoded.  The
    records of a [World] are well formed, so no subscript fails. *)
Definition get_vendor (vendor_id : string) : M (option Vendor) :=
  vendors <- load_data ;;
  ret (find_vendor vendors vendor_id).

Fixpoint remove_vendor (vendors : list Vendor) (vendor_id : string) : option (list Vendor) :=
  match vendors with
  | [] => None
  | v :: rest =>
      if String.eqb (id v) vendor_id then Some rest
      else match remove_vendor rest vendor_id with
           | Some rest' => Some (v :: rest')
           | None => None
           end
  end.

(** A writer of the store, for contrast with [compare_vendors]. *)
Definition delete_vendor (vendor_id : string) : M bool :=
  vendors <- load_data ;;
  match remove_vendor vendors vendor_id with
  | Some vendors' => save_data vendors' ;; ret true
  | None => ret false
  end.

(* ================================================================== *)
(** * [compare_vendors] *)

Definition not_found_warning (vid : string) : Renderable :=
  Markup ("[bold yellow]Warning:[/bold yellow] Vendor with ID " ++ vid
          ++ " not found.")%string.

Definition no_vendors_error : Renderable :=
  Markup "[bold red]Error:[/bold red] No valid vendors to compare.".

(** The first loop: [for vid in vendor_ids: ...], with the list [vendors]
    built so far. *)
Fixpoint resolve_loop (vendor_ids : list string) (vendors : list Vendor)
  : M (list Vendor) :=
  match vendor_ids with
  | [] => ret vendors
  | vid :: rest =>
      vendor <- get_vendor vid ;;
      match vendor with
      | Some v => resolve_loop rest (vendors ++ [v])
      | None => console_print (not_found_warning vid) ;;
                resolve_loop rest vendors
      end
  end.

Definition comparison_table : Table :=
  let table := new_table "Vendor Comparison" in
  let table := add_column table "Vendor" in
  let table := add_column table "Price Rating" in
  let table := add_column table "Delivery Time (days)" in
  let table := add_column table "Avg. Review" in
  add_column table "Overall Score".

(** The arguments of [table.add_row] for one vendor. *)
Definition table_row (vendor : Vendor) : list Cell :=
  [ Text (name vendor);
    Str (price_rating vendor);
    Str (delivery_time vendor);
    if Py.truthy (reviews vendor) then format_1f (avg_review vendor)
    else Text "No reviews";
    Str (overall_score vendor) ].

(** The second loop: [for vendor in vendors: ... table.add_row(...)]. *)
Fixpoint table_loop (vendors : list Vendor) (table : Table) : Table :=
  match vendors with
  | [] => table
  | vendor :: rest => table_loop rest (add_row table (table_row vendor))
  end.

(** [max(vendors, key=...)]; on an empty list [max] raises [ValueError]. *)
Definition best_vendor (vendors : list Vendor) : M Vendor :=
  match vendors with
  | [] => raise "ValueError"
  | v :: rest => ret (Py.max_scan key_score v rest)
  end.

Definition recommendation (best : Vendor) : Renderable :=
  PanelR ("[bold green]Recommended Vendor:[/bold green] " ++ name best)%string
         "Recommendation" "green".

(** The body of [compare_vendors] after the first loop. *)
Definition compare (vendors : list Vendor) : M unit :=
  if negb (Py.truthy vendors) then
    console_print no_vendors_error
  else
    let table := table_loop vendors comparison_table in
    console_print (TableR table) ;;
    best <- best_vendor vendors ;;
    console_print (recommendation best).

Definition compare_vendors (vendor_ids : list string) : M unit :=
  vendors <- resolve_loop vendor_ids [] ;;
  compare vendors.

(* ================================================================== *)
(** * Vocabulary of the specification *)

(** The declared domain of a review: a rating is present and in [1, 5]. *)
Definition rating_in_domain (review : Review) : Prop :=
  match rating review with
  | Some r => 1 <= r /\ r <= 5
  | None => False
  end.

(** The declared domain of a vendor record. *)
Definition in_domain (v : Vendor) : Prop :=
  (1 <= price_rating v /\ price_rating v <= 10) /\
  0 <= delivery_time v /\
  Forall rating_in_domain (reviews v).

(** The records that the first loop collects from a store, and the warnings
    it prints. *)
Fixpoint resolved (file : list Vendor) (vendor_ids : list string) : list Vendor :=
  match vendor_ids with
  | [] => []
  | vid :: rest =>
      match find_vendor file vid with
      | Some v => v :: resolved file rest
      | None => resolved file rest
      end
  end.

Fixpoint warnings (file : list Vendor) (vendor_ids : list string) : list Renderable :=
  match vendor_ids with
  | [] => []
  | vid :: rest =>
      match find_vendor file vid with
      | Some _ => warnings file rest
      | None => not_found_warning vid :: warnings file rest
      end
  end.

(** The table that [compare] prints for [vendors]. *)
Definition printed_table (vendors : list Vendor) : Renderable :=
  TableR (mkTable "Vendor Comparison"
            ["Vendor"; "Price Rating"; "Delivery Time (days)"; "Avg. Review";
             "Overall Score"]
            (map table_row vendors)).

(* ================================================================== *)
(** * Sample records *)

Module Sample.

Definition rated (r : Q) : Review := mkReview (Some r) "".

(** A review dict without a ['rating'] key. *)
Definition unrated : Review := mkReview None "no rating given".

(** The two vendors that [main] creates on first start. *)
Definition acme : Vendor := mkVendor "id-acme" "Acme Supplies" 6.5 3.5 [].
Definition megacorp : Vendor := mkVendor "id-mega" "MegaCorp" 4.2 5.0 [].

(** Acme with two reviews of rating 5. *)
Definition acme_reviewed : Vendor :=
  mkVendor "id-acme5" "Acme Reviewed" 6.5 3.5 [rated 5; rated 5].

(** Vendors equal up to their reviews. *)
Definition blank : Vendor := mkVendor "id-blank" "Blank" 1 0 [unrated].
Definition one_star : Vendor := mkVendor "id-blank" "Blank" 1 0 [rated 1].
Definition middling : Vendor := mkVendor "id-blank" "Blank" 1 0 [rated 2; rated 3].
Definition unreviewed : Vendor := mkVendor "id-blank" "Blank" 1 0 [].

Definition cheap : Vendor := mkVendor "id-cheap" "Cheap" 2 0 [].

Definition slow : Vendor := mkVendor "id-slow" "Slow" 3 40 [rated 4].

Definition store : World := mkWorld [acme; megacorp; acme_reviewed] [].

End Sample.

(* ================================================================== *)
(** * The "Compare Vendors" entry of the menu *)














(** [vendors[idx]] for a non-negative [idx]. *)
Definition item (vendors : list Vendor) (idx : Z) : M Vendor :=
  match nth_error vendors (Z.to_nat idx) with
  | Some v => ret v
  | None => raise "IndexError"
  end.






(* ================================================================== *)
(** * Purchase requests: records, store and approval workflow *)

Module Store.

(** What a JSON document holds, and what an attribute of an object may be. *)
#[warnings="-register-all"] Inductive Value : Type :=
| VNone
| VBool (b : bool)
| VInt (n : Z)
| VFloat (x : Q)
| VStr (s : string)
| VList (items : list Value)
| VDict (entries : list (string * Value)).

(** A dict, in insertion order. *)
Definition Dict : Type := list (string * Value).

(** [d.get(key)]; [None] where [d[key]] raises [KeyError]. *)
Fixpoint dict_get (d : Dict) (key : string) : option Value :=
  match d with
  | [] => None
  | (k, v) :: rest => if String.eqb k key then Some v else dict_get rest key
  end.

(** [key in d] *)
Definition dict_has (d : Dict) (key : string) : bool :=
  match dict_get d key with
  | Some _ => true
  | None => false
  end.

(** [d[key] = value]: the value of an existing key is replaced in place, a
    new key goes to the end. *)
Fixpoint dict_set (d : Dict) (key : string) (value : Value) : Dict :=
  match d with
  | [] => [(key, value)]
  | (k, v) :: rest =>
      if String.eqb k key then (k, value) :: rest
      else (k, v) :: dict_set rest key value
  end.

(** [d.get(key, default)] *)
Definition dict_get_default (d : Dict) (key : string) (default : Value) : Value :=
  match dict_get d key with
  | Some v => v
  | None => default
  end.

(** [v == s] and [v != s] for a string [s]. *)
Definition eq_str (v : Value) (s : string) : bool :=
  match v with
  | VStr t => String.eqb t s
  | _ => false
  end.

(** [key not in ['id', 'created_at']] *)
Definition protected (key : string) : bool :=
  String.eqb key "id" || String.eqb key "created_at".

(** An f-string before its conversion to text. *)
Inductive Part : Type :=
| Lit (s : string)
| Interp (v : Value).

Definition Line : Type := list Part.

(** The purchases file, the console, and the two sources the program draws
    from: [uuid.uuid4()] and [datetime.now()]. *)
Record Site : Type := mkSite {
  purchases_file : option (list Dict);   (** [None]: the file does not exist *)
  printed : list Line;
  uuid4 : nat -> string;
  uuids_drawn : nat;
  now : nat -> string;
  clock_reads : nat
}.

Definition IO (A : Type) : Type := Site -> Outcome A * Site.

Definition ret {A : Type} (a : A) : IO A := fun s => (Return a, s).

Definition raise {A : Type} (exc : string) : IO A := fun s => (Raise exc, s).

Definition bind {A B : Type} (m : IO A) (k : A -> IO B) : IO B :=
  fun s =>
    match m s with
    | (Return a, s') => k a s'
    | (Raise exc, s') => (Raise exc, s')
    end.

Declare Scope io_scope.
Delimit Scope io_scope with io.
Bind Scope io_scope with IO.
Notation "x <- m ;; k" := (bind m (fun x => k))
  (at level 61, m at next level, right associativity) : io_scope.
Notation "m ;; k" := (bind m (fun _ => k))
  (at level 61, right associativity) : io_scope.
#[local] Open Scope io_scope.

(** [load_data(PURCHASES_FILE)]: the default [[]] when the file is absent. *)
Definition load_data : IO (list Dict) :=
  fun s => (Return (match purchases_file s with
                    | Some data => data
                    | None => []
                    end), s).

(** [save_data(PURCHASES_FILE, data)] *)
Definition save_data (data : list Dict) : IO unit :=
  fun s => (Return tt,
            mkSite (Some data) (printed s) (uuid4 s) (uuids_drawn s)
                   (now s) (clock_reads s)).

(** [console.print(f"...")] *)
Definition console_print (line : Line) : IO unit :=
  fun s => (Return tt,
            mkSite (purchases_file s) (printed s ++ [line]) (uuid4 s)
                   (uuids_drawn s) (now s) (clock_reads s)).

(** [str(uuid.uuid4())] *)
Definition draw_uuid : IO string :=
  fun s => (Return (uuid4 s (uuids_drawn s)),
            mkSite (purchases_file s) (printed s) (uuid4 s)
                   (S (uuids_drawn s)) (now s) (clock_reads s)).

(** [datetime.now().isoformat()] *)
Definition read_clock : IO string :=
  fun s => (Return (now s (clock_reads s)),
            mkSite (purchases_file s) (printed s) (uuid4 s)
                   (uuids_drawn s) (now s) (S (clock_reads s))).

(** [d[key]] *)
Definition subscript (d : Dict) (key : string) : IO Value :=
  match dict_get d key with
  | Some v => ret v
  | None => raise "KeyError"
  end.

(** ** Class [Purchase] *)

Record Purchase : Type := mkPurchase {
  id : Value;
  item_name : Value;
  quantity : Value;
  requester : Value;
  vendor_id : Value;
  notes : Value;
  status : Value;
  approver : Value;
  approval_date : Value;
  approval_notes : Value;
  created_at : Value;
  updated_at : Value
}.

(** [Purchase.__init__] *)
Definition Purchase_init (item_name quantity requester vendor_id notes : Value)
  : IO Purchase :=
  new_id <- draw_uuid ;;
  stamp <- read_clock ;;
  ret (mkPurchase (VStr new_id) item_name quantity requester vendor_id notes
         (VStr "pending") VNone VNone (VStr "") (VStr stamp) (VStr stamp)).

(** [Purchase.to_dict]: the attributes in the order [__init__] sets them. *)
Definition to_dict (p : Purchase) : Dict :=
  [ ("id", id p); ("item_name", item_name p); ("quantity", quantity p);
    ("requester", requester p); ("vendor_id", vendor_id p);
    ("notes", notes p); ("status", status p); ("approver", approver p);
    ("approval_date", approval_date p);
    ("approval_notes", approval_notes p);
    ("created_at", created_at p); ("updated_at", updated_at p) ].

(** [Purchase.from_dict] *)
Definition from_dict (data : Dict) : IO Purchase :=
  a_item_name <- subscript data "item_name" ;;
  a_quantity <- subscript data "quantity" ;;
  a_requester <- subscript data "requester" ;;
  let a_vendor_id := dict_get_default data "vendor_id" VNone in
  let a_notes := dict_get_default data "notes" (VStr "") in
  purchase <- Purchase_init a_item_name a_quantity a_requester a_vendor_id a_notes ;;
  d_id <- subscript data "id" ;;
  d_status <- subscript data "status" ;;
  let d_approver := dict_get_default data "approver" VNone in
  let d_approval_date := dict_get_default data "approval_date" VNone in
  let d_approval_notes := dict_get_default data "approval_notes" (VStr "") in
  d_created_at <- subscript data "created_at" ;;
  d_updated_at <- subscript data "updated_at" ;;
  ret (mkPurchase d_id (item_name purchase) (quantity purchase)
         (requester purchase) (vendor_id purchase) (notes purchase)
         d_status d_approver d_approval_date d_approval_notes
         d_created_at d_updated_at).

(** ** CRUD operations for purchase requests *)

Definition create_purchase (item_name quantity requester vendor_id notes : Value)
  : IO Purchase :=
  purchase <- Purchase_init item_name quantity requester vendor_id notes ;;
  purchases <- load_data ;;
  save_data (purchases ++ [to_dict purchase]) ;;
  ret purchase.

(** The loop of [get_purchase]. *)
Fixpoint get_loop (purchases : list Dict) (purchase_id : string)
  : IO (option Purchase) :=
  match purchases with
  | [] => ret None
  | p :: rest =>
      p_id <- subscript p "id" ;;
      if eq_str p_id purchase_id
      then (purchase <- from_dict p ;; ret (Some purchase))
      else get_loop rest purchase_id
  end.

Definition get_purchase (purchase_id : string) : IO (option Purchase) :=
  purchases <- load_data ;;
  get_loop purchases purchase_id.

(** The inner loop of [update_purchase]: [for key, value in updates.items()]. *)
Fixpoint apply_updates (p : Dict) (updates : Dict) : Dict :=
  match updates with
  | [] => p
  | (key, value) :: rest =>
      if dict_has p key && negb (protected key)
      then apply_updates (dict_set p key value) rest
      else apply_updates p rest
  end.

(** The outer loop of [update_purchase]; [done] are the records already
    passed, so that [done ++ p :: rest] is the list [purchases]. *)
Fixpoint update_loop (done purchases : list Dict) (purchase_id : string)
  (updates : Dict) : IO (option Purchase) :=
  match purchases with
  | [] => ret None
  | p :: rest =>
      p_id <- subscript p "id" ;;
      if eq_str p_id purchase_id
      then
        let p := apply_updates p updates in
        stamp <- read_clock ;;
        let p := dict_set p "updated_at" (VStr stamp) in
        save_data (done ++ p :: rest) ;;
        purchase <- from_dict p ;;
        ret (Some purchase)
      else update_loop (done ++ [p]) rest purchase_id updates
  end.

Definition update_purchase (purchase_id : string) (updates : Dict)
  : IO (option Purchase) :=
  purchases <- load_data ;;
  update_loop [] purchases purchase_id updates.

(** The loop of [delete_purchase]. *)
Fixpoint delete_loop (done purchases : list Dict) (purchase_id : string)
  : IO bool :=
  match purchases with
  | [] => ret false
  | p :: rest =>
      p_id <- subscript p "id" ;;
      if eq_str p_id purchase_id
      then save_data (done ++ rest) ;; ret true
      else delete_loop (done ++ [p]) rest purchase_id
  end.

Definition delete_purchase (purchase_id : string) : IO bool :=
  purchases <- load_data ;;
  delete_loop [] purchases purchase_id.

(** The comprehension of [list_purchases]. *)
Fixpoint from_dicts (purchases : list Dict) : IO (list Purchase) :=
  match purchases with
  | [] => ret []
  | p :: rest =>
      purchase <- from_dict p ;;
      others <- from_dicts rest ;;
      ret (purchase :: others)
  end.

Definition list_purchases : IO (list Purchase) :=
  purchases <- load_data ;;
  from_dicts purchases.

(** ** Approval workflow *)

Definition not_found_error (purchase_id : string) : Line :=
  [ Lit "[bold red]Error:[/bold red] Purchase with ID ";
    Interp (VStr purchase_id); Lit " not found." ].

Definition already_warning (current : Value) : Line :=
  [ Lit "[bold yellow]Warning:[/bold yellow] Purchase is already ";
    Interp current; Lit "." ].

Definition approved_message (approver : Value) : Line :=
  [ Lit "[bold green]Success:[/bold green] Purchase has been approved by ";
    Interp approver; Lit "!" ].

Definition rejected_message (approver : Value) : Line :=
  [ Lit "[bold red]Note:[/bold red] Purchase has been rejected by ";
    Interp approver; Lit "." ].

(** The common shape of [approve_purchase] and [reject_purchase]. *)
Definition decide (decision : string) (message : Value -> Line)
  (purchase_id : string) (approver notes : Value) : IO (option Purchase) :=
  found <- get_purchase purchase_id ;;
  match found with
  | None => console_print (not_found_error purchase_id) ;; ret None
  | Some purchase =>
      if negb (eq_str (status purchase) "pending")
      then console_print (already_warning (status purchase)) ;;
           ret (Some purchase)
      else
        stamp <- read_clock ;;
        let updates := [ ("status", VStr decision); ("approver", approver);
                         ("approval_date", VStr stamp);
                         ("approval_notes", notes) ] in
        purchase <- update_purchase purchase_id updates ;;
        console_print (message approver) ;;
        ret purchase
  end.

Definition approve_purchase (purchase_id : string) (approver notes : Value)
  : IO (option Purchase) :=
  decide "approved" approved_message purchase_id approver notes.

Definition reject_purchase (purchase_id : string) (approver notes : Value)
  : IO (option Purchase) :=
  decide "rejected" rejected_message purchase_id approver notes.

(** A call of the approval menu, and a sequence of such calls, each made
    in the site the previous one left (whether it returned or raised). *)
Inductive Request : Type :=
| Approve (purchase_id : string) (approver notes : Value)
| Reject (purchase_id : string) (approver notes : Value).

Definition perform (r : Request) : IO (option Purchase) :=
  match r with
  | Approve purchase_id approver notes =>
      approve_purchase purchase_id approver notes
  | Reject purchase_id approver notes =>
      reject_purchase purchase_id approver notes
  end.

Fixpoint perform_all (requests : list Request) (s : Site) : Site :=
  match requests with
  | [] => s
  | r :: rest => perform_all rest (snd (perform r s))
  end.

(** ** Vocabulary of the properties *)

(** The records of the purchases file, as [load_data] returns them. *)
Definition records (s : Site) : list Dict :=
  match purchases_file s with
  | Some data => data
  | None => []
  end.

(** The keys that [from_dict] reads with [data[...]]. *)
Definition required_keys : list string :=
  ["item_name"; "quantity"; "requester"; "id"; "status"; "created_at";
   "updated_at"].

Definition well_formed (d : Dict) : bool := forallb (dict_has d) required_keys.

(** The object that [from_dict] builds from a well-formed record. *)
Definition decoded (d : Dict) : Purchase :=
  mkPurchase (dict_get_default d "id" VNone)
    (dict_get_default d "item_name" VNone)
    (dict_get_default d "quantity" VNone)
    (dict_get_default d "requester" VNone)
    (dict_get_default d "vendor_id" VNone)
    (dict_get_default d "notes" (VStr ""))
    (dict_get_default d "status" VNone)
    (dict_get_default d "approver" VNone)
    (dict_get_default d "approval_date" VNone)
    (dict_get_default d "approval_notes" (VStr ""))
    (dict_get_default d "created_at" VNone)
    (dict_get_default d "updated_at" VNone).

(** One [uuid4] drawn and one clock read, as every [__init__] does. *)
Definition after_init (s : Site) : Site :=
  mkSite (purchases_file s) (printed s) (uuid4 s) (S (uuids_drawn s))
         (now s) (S (clock_reads s)).

(** The record that [update_purchase] writes in place of [p] at time
    [stamp]. *)
Definition stamped (updates p : Dict) (stamp : string) : Dict :=
  dict_set (apply_updates p updates) "updated_at" (VStr stamp).

(** The site once [update_purchase] has read the clock and saved. *)
Definition after_save (data : list Dict) (s : Site) : Site :=
  mkSite (Some data) (printed s) (uuid4 s) (uuids_drawn s) (now s)
         (S (clock_reads s)).

(** The updates that [approve_purchase] and [reject_purchase] build, and
    the record they store for a pending [p]: the approval date is the second
    clock reading of the call, ['updated_at'] the third. *)
Definition decision_updates (decision : string) (approver notes : Value)
  (s : Site) : Dict :=
  [ ("status", VStr decision); ("approver", approver);
    ("approval_date", VStr (now s (S (clock_reads s))));
    ("approval_notes", notes) ].

Definition decided (decision : string) (approver notes : Value) (p : Dict)
  (s : Site) : Dict :=
  stamped (decision_updates decision approver notes s) p
    (now s (S (S (clock_reads s)))).

(** [p] is the first record of [purchases] whose ['id'] is [purchase_id]:
    the records before it all have an ['id'], and a different one. *)
Definition first_with_id (purchases : list Dict) (purchase_id : string)
  (before : list Dict) (p : Dict) (after : list Dict) : Prop :=
  purchases = before ++ p :: after /\
  (forall q, In q before ->
     exists v, dict_get q "id" = Some v /\ eq_str v purchase_id = false) /\
  (exists v, dict_get p "id" = Some v /\ eq_str v purchase_id = true).

(** No record of [purchases] has the ['id'] [purchase_id], and all have
    one. *)
Definition none_with_id (purchases : list Dict) (purchase_id : string) : Prop :=
  forall q, In q purchases ->
    exists v, dict_get q "id" = Some v /\ eq_str v purchase_id = false.

(** What the loops can meet: a first match, no match, or a record without
    ['id'] before any match. *)
Definition unreadable (purchases : list Dict) (rid : string) : Prop :=
  exists before q after,
    purchases = before ++ q :: after /\
    (forall x, In x before ->
       exists v, dict_get x "id" = Some v /\ eq_str v rid = false) /\
    dict_get q "id" = None.

End Store.

(** Sample purchase records and a sample site. *)
Module Desk.
Import Store.

Definition paper : Purchase :=
  mkPurchase (VStr "p-paper") (VStr "Paper") (VInt 10) (VStr "Ana") VNone
    (VStr "") (VStr "pending") VNone VNone (VStr "") (VStr "2024-01-01T09:00:00")
    (VStr "2024-01-01T09:00:00").

Definition chairs : Purchase :=
  mkPurchase (VStr "p-chairs") (VStr "Chairs") (VInt 4) (VStr "Bo")
    (VStr "id-acme") (VStr "urgent") (VStr "approved") (VStr "Cy")
    (VStr "2024-01-03T10:00:00") (VStr "ok") (VStr "2024-01-02T09:00:00")
    (VStr "2024-01-03T10:00:00").

(** A hand-written record without its ['status']. *)
Definition broken : Dict :=
  [ ("id", VStr "p-broken"); ("item_name", VStr "Ink"); ("quantity", VInt 1);
    ("requester", VStr "Di"); ("created_at", VStr "2024-01-04T09:00:00");
    ("updated_at", VStr "2024-01-04T09:00:00") ].

(** A hand-written record with the required keys only. *)
Definition minimal : Dict :=
  [ ("id", VStr "p-min"); ("item_name", VStr "Pens"); ("quantity", VInt 2);
    ("requester", VStr "Ed"); ("status", VStr "pending");
    ("created_at", VStr "2024-01-05T09:00:00");
    ("updated_at", VStr "2024-01-05T09:00:00") ].

Definition uuid_source (n : nat) : string :=
  match n with
  | O => "uuid-a"
  | 1%nat => "uuid-b"
  | 2%nat => "uuid-c"
  | _ => "uuid-d"
  end.

Definition time_source (n : nat) : string :=
  match n with
  | O => "2024-02-01T08:00:00"
  | 1%nat => "2024-02-01T08:00:01"
  | 2%nat => "2024-02-01T08:00:02"
  | 3%nat => "2024-02-01T08:00:03"
  | _ => "2024-02-01T08:00:04"
  end.

Definition site : Site :=
  mkSite (Some [to_dict paper; to_dict chairs]) [] uuid_source 0 time_source 0.

Definition site_with_broken : Site :=
  mkSite (Some [to_dict paper; broken]) [] uuid_source 0 time_source 0.

Definition fresh_site : Site :=
  mkSite None [] uuid_source 0 time_source 0.

End Desk.

(* ================================================================== *)
(** * The comparison in binary64 arithmetic *)

(** The numbers that the program stores are Python [float]s: the menu
    converts what is typed with [float(...)] (price rating, delivery time
    and the rating of a review) and [main] creates its two vendors with
    float literals.  [Module Binary64] embeds [compare_vendors] over such
    records, with IEEE 754 binary64 arithmetic (the primitive floats,
    rounding to nearest, ties to even; NaN and the infinities included),
    so that what is printed and who is recommended are the program's own
    results, bit for bit. *)
Module Binary64.
Import Floats.

Set Warnings "-inexact-float".
#[local] Open Scope float_scope.

(** A review dict: the value of its ['rating'] key, a float, if it has the
    key. *)
Record Review : Type := mkReview {
  rating : option float;
  comment : string
}.

Record Vendor : Type := mkVendor {
  id : string;
  name : string;
  price_rating : float;
  delivery_time : float;
  reviews : list Review
}.

(** ** Python primitives on floats *)

(** [sum] of floats is not the same function in every CPython: up to 3.11
    it adds from left to right, from 3.12 on it carries a compensation term
    (Neumaier's summation).  The program does not fix its interpreter. *)
Inductive Version : Type :=
| Before312
| From312.

Definition truthy {A : Type} (xs : list A) : bool :=
  match xs with
  | [] => false
  | _ :: _ => true
  end.

(** [a > b] *)
Definition gt (a b : float) : bool := b <? a.

(** [min(a, b)]: [b] if [b < a], else [a]. *)
Definition min (a b : float) : float := if b <? a then b else a.

(** The float of an [int] that counts something. *)
Definition float_of_nat (n : nat) : float :=
  SF2Prim (binary_normalize prec emax (Z.of_nat n) 0 false).

(** [len(xs)], as the float it becomes under [/]. *)
Definition len {A : Type} (xs : list A) : float := float_of_nat (List.length xs).

(** [review.get('rating', 0)] in a sum of floats: the default counts as
    zero. *)
Definition item (r : option float) : float :=
  match r with
  | Some x => x
  | None => 0
  end.

(** [sum(...)] up to CPython 3.11: a left fold from [0]. *)
Definition sum_left (items : list (option float)) : float :=
  fold_left (fun acc r => acc + item r) items 0.

(** The float loop of [sum] from CPython 3.12 on, with its running total
    [f_result] and compensation [c]; a default [0] adds zero to the
    total. *)
Fixpoint neumaier (f_result c : float) (items : list (option float)) : float :=
  match items with
  | [] =>
      if negb (c =? 0) && is_finite c then f_result + c else f_result
  | Some x :: rest =>
      let t := f_result + x in
      let c := if abs x <=? abs f_result
               then c + ((f_result - t) + x)
               else c + ((x - t) + f_result) in
      neumaier t c rest
  | None :: rest => neumaier (f_result + 0) c rest
  end.

(** [sum(...)] from CPython 3.12 on: the defaults [0] are added as integers
    until the first float arrives, which starts the float loop. *)
Fixpoint sum_compensated (items : list (option float)) : float :=
  match items with
  | [] => 0
  | None :: rest => sum_compensated rest
  | Some x :: rest => neumaier (0 + x) 0 rest
  end.

Definition sum (python : Version) (items : list (option float)) : float :=
  match python with
  | Before312 => sum_left items
  | From312 => sum_compensated items
  end.

(** [max(xs, key=key)] scans from the left and replaces the current best
    only by an item whose key is strictly greater. *)
Definition max_scan {A : Type} (key : A -> float) (best : A) (xs : list A) : A :=
  fold_left (fun b x => if gt (key x) (key b) then x else b) xs best.

(** ** Decimal rounding *)

(** The rational that a finite float is. *)
Definition Q_of_float (x : float) : Q :=
  match Prim2SF x with
  | S754_finite s m e =>
      let magnitude :=
        match e with
        | Zneg p => Qmake (Zpos m) (Pos.pow 2 p)
        | _ => inject_Z (Zpos m * 2 ^ e)
        end in
      if s then Qopp magnitude else magnitude
  | _ => 0%Q
  end.

(** Nearest integer, ties to even. *)
Definition round_half_even (q : Q) : Z :=
  let f := Qfloor q in
  match ((q - inject_Z f) ?= 0.5)%Q with
  | Lt => f
  | Gt => (f + 1)%Z
  | Eq => if Z.even f then f else (f + 1)%Z
  end.

(** The decimal with one digit after the point that is nearest to the exact
    value of [x], counted in tenths. *)
Definition tenths (x : float) : Z := round_half_even (Q_of_float x * 10)%Q.

(** The float nearest to [n / 10]. *)
Definition nearest_tenth (negative : bool) (n : Z) : float :=
  match Z.abs n with
  | Zpos m =>
      SF2Prim (SFdiv prec emax (S754_finite negative m 0) (S754_finite false 10 0))
  | _ => if negative then neg_zero else zero
  end.

(** [round(x, 1)]: the exact value of [x] is rounded to one decimal, and the
    decimal is read back as a float; NaN and the infinities round to
    themselves. *)
Definition round1 (x : float) : float :=
  if is_finite x then nearest_tenth (get_sign x) (tenths x) else x.

Definition str_N (n : N) : string := NilEmpty.string_of_uint (N.to_uint n).

(** [f"{x:.1f}"] *)
Definition format_1f (x : float) : string :=
  if is_nan x then "nan"
  else if is_infinity x then (if get_sign x then "-inf" else "inf")
  else
    let n := Z.to_N (Z.abs (tenths x)) in
    ((if get_sign x then "-" else "")
     ++ str_N (n / 10) ++ "." ++ str_N (n mod 10))%string.

(** ** Console objects, world and monad *)

Inductive Cell : Type :=
| Text (s : string)        (** a string as it is *)
| Str (x : float).         (** [str(x)] and [f"{x}"] *)

Record Table : Type := mkTable {
  title : string;
  columns : list string;
  rows : list (list Cell)
}.

Definition new_table (t : string) : Table := mkTable t [] [].

Definition add_column (table : Table) (header : string) : Table :=
  mkTable (title table) (columns table ++ [header]) (rows table).

Definition add_row (table : Table) (cells : list Cell) : Table :=
  mkTable (title table) (columns table) (rows table ++ [cells]).

Inductive Renderable : Type :=
| Markup (s : string)
| TableR (table : Table)
| PanelR (body : string) (panel_title : string) (border_style : string).

(** The vendor file holds well-formed records: every key that
    [Vendor.from_dict] reads is present, and the numbers are floats.  A
    missing file reads as the empty list. *)
Record World : Type := mkWorld {
  vendors_file : list Vendor;
  console : list Renderable
}.

Definition M (A : Type) : Type := World -> Outcome A * World.

Definition ret {A : Type} (a : A) : M A := fun w => (Return a, w).

Definition raise {A : Type} (exc : string) : M A := fun w => (Raise exc, w).

Definition bind {A B : Type} (m : M A) (k : A -> M B) : M B :=
  fun w =>
    match m w with
    | (Return a, w') => k a w'
    | (Raise exc, w') => (Raise exc, w')
    end.

Declare Scope f64_scope.
Delimit Scope f64_scope with f64.
Bind Scope f64_scope with M.
Notation "x <- m ;; k" := (bind m (fun x => k))
  (at level 61, m at next level, right associativity) : f64_scope.
Notation "m ;; k" := (bind m (fun _ => k))
  (at level 61, right associativity) : f64_scope.
#[local] Open Scope f64_scope.

Definition load_data : M (list Vendor) :=
  fun w => (Return (vendors_file w), w).

Definition console_print (r : Renderable) : M unit :=
  fun w => (Return tt, mkWorld (vendors_file w) (console w ++ [r])).

Fixpoint find_vendor (vendors : list Vendor) (vendor_id : string) : option Vendor :=
  match vendors with
  | [] => None
  | v :: rest => if String.eqb (id v) vendor_id then Some v
                 else find_vendor rest vendor_id
  end.

Definition get_vendor (vendor_id : string) : M (option Vendor) :=
  vendors <- load_data ;;
  ret (find_vendor vendors vendor_id).

(** ** [compare_vendors] *)

Definition not_found_warning (vid : string) : Renderable :=
  Markup ("[bold yellow]Warning:[/bold yellow] Vendor with ID " ++ vid
          ++ " not found.")%string.

Definition no_vendors_error : Renderable :=
  Markup "[bold red]Error:[/bold red] No valid vendors to compare.".

Fixpoint resolve_loop (vendor_ids : list string) (vendors : list Vendor)
  : M (list Vendor) :=
  match vendor_ids with
  | [] => ret vendors
  | vid :: rest =>
      vendor <- get_vendor vid ;;
      match vendor with
      | Some v => resolve_loop rest (vendors ++ [v])
      | None => console_print (not_found_warning vid) ;;
                resolve_loop rest vendors
      end
  end.

Definition comparison_table : Table :=
  let table := new_table "Vendor Comparison" in
  let table := add_column table "Vendor" in
  let table := add_column table "Price Rating" in
  let table := add_column table "Delivery Time (days)" in
  let table := add_column table "Avg. Review" in
  add_column table "Overall Score".

Definition recommendation (best : Vendor) : Renderable :=
  PanelR ("[bold green]Recommended Vendor:[/bold green] " ++ name best)%string
         "Recommendation" "green".

Section Engine.

Variable python : Version.

Definition ratings (vendor : Vendor) : list (option float) :=
  map rating (reviews vendor).

(** [avg_review] of the table loop. *)
Definition avg_review (vendor : Vendor) : float :=
  if truthy (reviews vendor)
  then let total := sum python (ratings vendor) in
       total / len (reviews vendor)
  else 0.

Definition price_factor (vendor : Vendor) : float :=
  price_rating vendor / 10 * 0.4.

Definition delivery_factor (vendor : Vendor) : float :=
  min (delivery_time vendor) 30 / 30 * 0.4.

Definition review_factor (vendor : Vendor) : float :=
  if gt (avg_review vendor) 0
  then (5 - avg_review vendor) / 5 * 0.2
  else 0.1.

(** [overall_score] before [round]. *)
Definition raw_score (vendor : Vendor) : float :=
  10 - ((price_factor vendor + delivery_factor vendor + review_factor vendor) * 10).

(** [overall_score = round(overall_score, 1)] *)
Definition overall_score (vendor : Vendor) : float :=
  round1 (raw_score vendor).

(** The [lambda v: ...] given to [max]. *)
Definition key_score (v : Vendor) : float :=
  10 - ((price_rating v / 10 * 0.4)
        + (min (delivery_time v) 30 / 30 * 0.4)
        + (if truthy (reviews v)
           then (5 - (if truthy (reviews v)
                      then sum python (ratings v) / len (reviews v)
                      else 0)) / 5 * 0.2
           else 0.1)).

(** The arguments of [table.add_row] for one vendor. *)
Definition table_row (vendor : Vendor) : list Cell :=
  [ Text (name vendor);
    Str (price_rating vendor);
    Str (delivery_time vendor);
    if truthy (reviews vendor) then Text (format_1f (avg_review vendor))
    else Text "No reviews";
    Str (overall_score vendor) ].

Fixpoint table_loop (vendors : list Vendor) (table : Table) : Table :=
  match vendors with
  | [] => table
  | vendor :: rest => table_loop rest (add_row table (table_row vendor))
  end.

(** [max(vendors, key=...)]; on an empty list [max] raises [ValueError]. *)
Definition best_vendor (vendors : list Vendor) : M Vendor :=
  match vendors with
  | [] => raise "ValueError"
  | v :: rest => ret (max_scan key_score v rest)
  end.

(** The body of [compare_vendors] after the first loop. *)
Definition compare (vendors : list Vendor) : M unit :=
  if negb (truthy vendors) then
    console_print no_vendors_error
  else
    let table := table_loop vendors comparison_table in
    console_print (TableR table) ;;
    best <- best_vendor vendors ;;
    console_print (recommendation best).

Definition compare_vendors (vendor_ids : list string) : M unit :=
  vendors <- resolve_loop vendor_ids [] ;;
  compare vendors.

(** The table that [compare] prints for [vendors]. *)
Definition printed_table (vendors : list Vendor) : Renderable :=
  TableR (mkTable "Vendor Comparison"
            ["Vendor"; "Price Rating"; "Delivery Time (days)"; "Avg. Review";
             "Overall Score"]
            (map table_row vendors)).

End Engine.

(** ** Vocabulary *)



Fixpoint resolved (file : list Vendor) (vendor_ids : list string) : list Vendor :=
  match vendor_ids with
  | [] => []
  | vid :: rest =>
      match find_vendor file vid with
      | Some v => v :: resolved file rest
      | None => resolved file rest
      end
  end.

Fixpoint warnings (file : list Vendor) (vendor_ids : list string) : list Renderable :=
  match vendor_ids with
  | [] => []
  | vid :: rest =>
      match find_vendor file vid with
      | Some _ => warnings file rest
      | None => not_found_warning vid :: warnings file rest
      end
  end.

(** ** Sample records *)

Definition rated (r : float) : Review := mkReview (Some r) "".

(** The two vendors that [main] creates on first start. *)
Definition acme : Vendor := mkVendor "id-acme" "Acme Supplies" 6.5 3.5 [].
Definition megacorp : Vendor := mkVendor "id-mega" "MegaCorp" 4.2 5.0 [].

Definition acme_reviewed : Vendor :=
  mkVendor "id-acme5" "Acme Reviewed" 6.5 3.5 [rated 5; rated 5].


(** Two vendors whose keys are equal as real numbers (both 9.84666...) and
    differ as floats. *)
Definition plain : Vendor := mkVendor "id-plain" "Plain" 1 1 [].
Definition praised : Vendor :=
  mkVendor "id-praised" "Praised" 1.5 2.5 [rated 3; rated 4].

(** A vendor whose price rating was typed as [nan]. *)
Definition unpriced : Vendor := mkVendor "id-unpriced" "Unpriced" nan 2 [].


(** Two vendors whose keys are equal as floats and whose scores differ. *)
Definition level : Vendor := mkVendor "id-level" "Level" 1.125 4.5 [].
Definition ahead : Vendor := mkVendor "id-ahead" "Ahead" 1.75 2.625 [].

(** A score of 8.35 and an average of 4.35 as real numbers; the floats
    nearest to them are a little smaller. *)
Definition halfway : Vendor := mkVendor "id-half" "Halfway" 1.625 0 [].
Definition halfway_rated : Vendor :=
  mkVendor "id-half" "Halfway" 1 0 [rated 4.35].

Definition store : World := mkWorld [acme; megacorp; acme_reviewed] [].

End Binary64.

(* ================================================================== *)
(** * Python primitives: lemmas *)

(** [lra] does not look through a division: divisions by the constants of
    the formula are turned into multiplications first. *)
Ltac qconsts :=
  unfold Qdiv in *;
  change (/ 10) with (1 # 10) in *;
  change (/ 30) with (1 # 30) in *;
  change (/ 5) with (1 # 5) in *.

Section PyLemmas.

Lemma gt_true_iff (a b : Q) : Py.gt a b = true <-> b < a.
Proof.
  unfold Py.gt. destruct (Qcompare_spec a b) as [H|H|H]; split; intro K;
    try discriminate; try reflexivity; lra.
Qed.

Lemma gt_false_iff (a b : Q) : Py.gt a b = false <-> a <= b.
Proof.
  unfold Py.gt. destruct (Qcompare_spec a b) as [H|H|H]; split; intro K;
    try discriminate; try reflexivity; lra.
Qed.

Lemma gt_cases (a b : Q) :
  (Py.gt a b = true /\ b < a) \/ (Py.gt a b = false /\ a <= b).
Proof.
  destruct (Py.gt a b) eqn:E.
  - left. split; [reflexivity | now apply gt_true_iff].
  - right. split; [reflexivity | now apply gt_false_iff].
Qed.

Lemma min_ge (a b : Q) : b <= a -> Py.min a b == b.
Proof.
  intro H. unfold Py.min.
  destruct (gt_cases a b) as [[E K]|[E K]]; rewrite E; lra.
Qed.

Lemma min_mono (a1 a2 b : Q) : a1 <= a2 -> Py.min a1 b <= Py.min a2 b.
Proof.
  intro H. unfold Py.min.
  destruct (gt_cases a1 b) as [[E1 K1]|[E1 K1]];
  destruct (gt_cases a2 b) as [[E2 K2]|[E2 K2]]; rewrite E1, E2; lra.
Qed.

Lemma min_bounds (a b : Q) : 0 <= a -> 0 <= b -> 0 <= Py.min a b <= b.
Proof.
  intros Ha Hb. unfold Py.min.
  destruct (gt_cases a b) as [[E K]|[E K]]; rewrite E; lra.
Qed.

Lemma floor_bounds (q : Q) : inject_Z (Qfloor q) <= q < inject_Z (Qfloor q) + 1.
Proof.
  split; [apply Qfloor_le |].
  pose proof (Qlt_floor q) as H. rewrite inject_Z_plus in H. exact H.
Qed.

Lemma round_half_even_cases (q : Q) :
  (Py.round_half_even q = Qfloor q /\ q - inject_Z (Qfloor q) <= 0.5) \/
  (Py.round_half_even q = (Qfloor q + 1)%Z /\ 0.5 <= q - inject_Z (Qfloor q)).
Proof.
  unfold Py.round_half_even. cbv zeta.
  destruct (Qcompare_spec (q - inject_Z (Qfloor q)) 0.5) as [H|H|H].
  - destruct (Z.even (Qfloor q)); [left | right]; split; try reflexivity; lra.
  - left. split; [reflexivity | lra].
  - right. split; [reflexivity | lra].
Qed.

Lemma inject_Z_le_iff (a b : Z) : inject_Z a <= inject_Z b <-> (a <= b)%Z.
Proof. rewrite <- Zle_Qle. reflexivity. Qed.

Lemma inject_Z_lt_iff (a b : Z) : inject_Z a < inject_Z b <-> (a < b)%Z.
Proof. rewrite <- Zlt_Qlt. reflexivity. Qed.

Lemma round_half_even_comp (p q : Q) :
  p == q -> Py.round_half_even p = Py.round_half_even q.
Proof.
  intro H. unfold Py.round_half_even.
  rewrite (Qfloor_comp _ _ H).
  assert (E : ((p - inject_Z (Qfloor q)) ?= 0.5) = ((q - inject_Z (Qfloor q)) ?= 0.5)).
  { apply Qcompare_comp; [rewrite H|]; reflexivity. }
  rewrite E. reflexivity.
Qed.

Lemma round_half_even_mono (p q : Q) :
  p <= q -> (Py.round_half_even p <= Py.round_half_even q)%Z.
Proof.
  intro H.
  pose proof (Qfloor_resp_le _ _ H) as Hf.
  pose proof (floor_bounds p) as [Hp1 Hp2].
  pose proof (floor_bounds q) as [Hq1 Hq2].
  destruct (Z.eq_dec (Qfloor p) (Qfloor q)) as [E|N].
  - unfold Py.round_half_even. rewrite E.
    destruct (Qcompare_spec (p - inject_Z (Qfloor q)) 0.5) as [H1|H1|H1];
    destruct (Qcompare_spec (q - inject_Z (Qfloor q)) 0.5) as [H2|H2|H2];
    try (destruct (Z.even (Qfloor q))); try lia; exfalso; lra.
  - assert (Hlt : (Qfloor p + 1 <= Qfloor q)%Z) by lia.
    destruct (round_half_even_cases p) as [[E1 _]|[E1 _]];
    destruct (round_half_even_cases q) as [[E2 _]|[E2 _]];
    rewrite E1, E2; lia.
Qed.

Lemma round_half_even_between (a b : Z) (q : Q) :
  inject_Z a <= q -> q <= inject_Z b ->
  (a <= Py.round_half_even q <= b)%Z.
Proof.
  intros Ha Hb.
  pose proof (floor_bounds q) as [Hq1 Hq2].
  assert (Hfa : (a <= Qfloor q)%Z).
  { rewrite <- (Qfloor_Z a). now apply Qfloor_resp_le. }
  assert (Hfb : (Qfloor q <= b)%Z).
  { rewrite <- (Qfloor_Z b). now apply Qfloor_resp_le. }
  destruct (round_half_even_cases q) as [[E K]|[E K]]; rewrite E.
  - lia.
  - split; [lia|].
    assert (Hlt : inject_Z (Qfloor q) < inject_Z b) by lra.
    apply (proj1 (inject_Z_lt_iff _ _)) in Hlt. lia.
Qed.

Lemma round1_mono (x y : Q) : x <= y -> Py.round1 x <= Py.round1 y.
Proof.
  intro H. unfold Py.round1.
  assert (K : (Py.round_half_even (x * 10) <= Py.round_half_even (y * 10))%Z).
  { apply round_half_even_mono. lra. }
  apply (proj2 (inject_Z_le_iff _ _)) in K. qconsts. lra.
Qed.

Lemma round1_comp (x y : Q) : x == y -> Py.round1 x = Py.round1 y.
Proof.
  intro H. unfold Py.round1.
  rewrite (round_half_even_comp (x * 10) (y * 10)); [reflexivity | now rewrite H].
Qed.

End PyLemmas.

(* ================================================================== *)
(** * Averages *)

Section Averages.

Lemma len_cons {A : Type} (x : A) (xs : list A) : Py.len (x :: xs) == Py.len xs + 1.
Proof.
  unfold Py.len. cbn [List.length].
  rewrite Nat2Z.inj_succ, <- Z.add_1_r, inject_Z_plus. reflexivity.
Qed.

Lemma len_nonneg {A : Type} (xs : list A) : 0 <= Py.len xs.
Proof.
  unfold Py.len. change 0 with (inject_Z 0). rewrite <- Zle_Qle. lia.
Qed.

Lemma len_pos {A : Type} (xs : list A) : xs <> [] -> 0 < Py.len xs.
Proof.
  destruct xs as [|x xs]; [congruence | intros _].
  rewrite len_cons. pose proof (len_nonneg xs). lra.
Qed.

Lemma truthy_true_iff {A : Type} (xs : list A) : Py.truthy xs = true <-> xs <> [].
Proof. destruct xs; cbn; split; congruence. Qed.

Lemma get_rating_in_domain (r : Review) :
  rating_in_domain r -> 1 <= get_rating r <= 5.
Proof.
  unfold rating_in_domain, get_rating. destruct (rating r); [tauto | contradiction].
Qed.

(** The running total of the ratings stays between [1] and [5] per review. *)
Lemma fold_ratings_bounds (rs : list Review) :
  Forall rating_in_domain rs ->
  forall acc,
    acc + Py.len rs * 1 <= fold_left (fun a x => a + get_rating x) rs acc
    /\ fold_left (fun a x => a + get_rating x) rs acc <= acc + Py.len rs * 5.
Proof.
  induction 1 as [|r rs Hr _ IH]; intro acc.
  - cbn [fold_left]. change (Py.len (@nil Review)) with 0. lra.
  - cbn [fold_left]. destruct (IH (acc + get_rating r)) as [IH1 IH2].
    apply get_rating_in_domain in Hr. pose proof (len_cons r rs) as L.
    split; lra.
Qed.

Lemma avg_review_nonempty (v : Vendor) :
  reviews v <> [] ->
  avg_review v = Py.sum get_rating (reviews v) / Py.len (reviews v).
Proof.
  intro H. unfold avg_review. apply truthy_true_iff in H. now rewrite H.
Qed.

Lemma avg_review_in_domain (v : Vendor) :
  reviews v <> [] -> Forall rating_in_domain (reviews v) ->
  1 <= avg_review v <= 5.
Proof.
  intros Hne Hdom. rewrite (avg_review_nonempty v Hne).
  pose proof (len_pos _ Hne) as Hlen.
  destruct (fold_ratings_bounds _ Hdom 0) as [H1 H2]. fold (Py.sum get_rating (reviews v)) in H1, H2.
  split.
  - apply Qle_shift_div_l; [exact Hlen | lra].
  - apply Qle_shift_div_r; [exact Hlen | lra].
Qed.

End Averages.

(* ================================================================== *)
(** * The three factors *)

Section Factors.

Lemma review_factor_empty (v : Vendor) : reviews v = [] -> review_factor v = 0.1.
Proof.
  intro H. unfold review_factor, avg_review. rewrite H. reflexivity.
Qed.

Lemma review_factor_positive (v : Vendor) :
  0 < avg_review v -> review_factor v = (5 - avg_review v) / 5 * 0.2.
Proof.
  intro H. unfold review_factor. apply gt_true_iff in H. now rewrite H.
Qed.

(** The test of the table loop is on the average, not on the list. *)
Lemma review_factor_not_positive (v : Vendor) :
  avg_review v <= 0 -> review_factor v = 0.1.
Proof.
  intro H. unfold review_factor. apply gt_false_iff in H. now rewrite H.
Qed.

Lemma key_review_factor_empty (v : Vendor) :
  reviews v = [] -> key_review_factor v = 0.1.
Proof.
  intro H. unfold key_review_factor. rewrite H. reflexivity.
Qed.

Lemma key_review_factor_nonempty (v : Vendor) :
  reviews v <> [] -> key_review_factor v = (5 - avg_review v) / 5 * 0.2.
Proof.
  intro H. unfold key_review_factor, avg_review.
  apply truthy_true_iff in H. now rewrite H.
Qed.

Lemma price_factor_bounds (v : Vendor) :
  1 <= price_rating v -> price_rating v <= 10 ->
  0.04 <= price_factor v <= 0.4.
Proof. intros H1 H2. unfold price_factor. qconsts. split; lra. Qed.

Lemma delivery_factor_bounds (v : Vendor) :
  0 <= delivery_time v -> 0 <= delivery_factor v <= 0.4.
Proof.
  intro H. unfold delivery_factor.
  destruct (min_bounds (delivery_time v) 30 H) as [H1 H2]; [lra|].
  qconsts. split; lra.
Qed.

Lemma review_factor_bounds (v : Vendor) :
  Forall rating_in_domain (reviews v) -> 0 <= review_factor v <= 0.16.
Proof.
  intro Hdom. destruct (reviews v) as [|r rs] eqn:E.
  - rewrite (review_factor_empty v E). split; lra.
  - assert (Hne : reviews v <> []) by (rewrite E; discriminate).
    rewrite <- E in Hdom.
    destruct (avg_review_in_domain v Hne Hdom) as [H1 H2].
    rewrite review_factor_positive by lra. qconsts. split; lra.
Qed.

Lemma raw_score_bounds (v : Vendor) :
  in_domain v -> 0.4 <= raw_score v <= 9.6.
Proof.
  intros [[Hp1 Hp2] [Hd Hr]]. unfold raw_score.
  destruct (price_factor_bounds v Hp1 Hp2).
  destruct (delivery_factor_bounds v Hd).
  destruct (review_factor_bounds v Hr).
  split; lra.
Qed.

Lemma overall_score_tenths (v : Vendor) :
  overall_score v == inject_Z (Py.round_half_even (raw_score v * 10)) * 0.1.
Proof. unfold overall_score, Py.round1. qconsts. lra. Qed.

End Factors.

(* ================================================================== *)
(** * Monotonicity of the table score *)

Section Monotonicity.

Lemma overall_score_le (v1 v2 : Vendor) :
  raw_score v1 <= raw_score v2 -> overall_score v1 <= overall_score v2.
Proof. apply round1_mono. Qed.

Lemma overall_score_price_mono (v : Vendor) (p1 p2 : Q) :
  p1 <= p2 ->
  overall_score (with_price_rating v p2) <= overall_score (with_price_rating v p1).
Proof.
  intro H. apply overall_score_le.
  unfold raw_score, price_factor, delivery_factor, review_factor, avg_review.
  cbn [with_price_rating price_rating delivery_time reviews].
  qconsts. lra.
Qed.

Lemma overall_score_delivery_mono (v : Vendor) (d1 d2 : Q) :
  d1 <= d2 ->
  overall_score (with_delivery_time v d2) <= overall_score (with_delivery_time v d1).
Proof.
  intro H. apply overall_score_le.
  unfold raw_score, price_factor, delivery_factor, review_factor, avg_review.
  cbn [with_delivery_time price_rating delivery_time reviews].
  pose proof (min_mono d1 d2 30 H).
  qconsts. lra.
Qed.

(** Between two review lists whose averages are positive, the better
    average never scores lower. *)
Lemma overall_score_average_mono (v : Vendor) (rs1 rs2 : list Review) :
  0 < avg_review (with_reviews v rs1) ->
  avg_review (with_reviews v rs1) <= avg_review (with_reviews v rs2) ->
  overall_score (with_reviews v rs1) <= overall_score (with_reviews v rs2).
Proof.
  intros Hpos Hle. apply overall_score_le. unfold raw_score.
  rewrite !review_factor_positive by lra.
  unfold price_factor, delivery_factor.
  cbn [with_reviews price_rating delivery_time].
  qconsts. lra.
Qed.

(** The key of [max] is monotone in the average over all non-empty review
    lists. *)
Lemma key_score_average_mono (v : Vendor) (rs1 rs2 : list Review) :
  rs1 <> [] -> rs2 <> [] ->
  avg_review (with_reviews v rs1) <= avg_review (with_reviews v rs2) ->
  key_score (with_reviews v rs1) <= key_score (with_reviews v rs2).
Proof.
  intros H1 H2 Hle. unfold key_score.
  rewrite !key_review_factor_nonempty by assumption.
  cbn [with_reviews price_rating delivery_time].
  qconsts. lra.
Qed.

End Monotonicity.

(* ================================================================== *)
(** * Running the program *)

Section Runs.

Lemma table_loop_spec (vendors : list Vendor) (table : Table) :
  table_loop vendors table =
  mkTable (title table) (columns table) (rows table ++ map table_row vendors).
Proof.
  revert table. induction vendors as [|v vs IH]; intro table.
  - cbn. rewrite app_nil_r. now destruct table.
  - cbn [table_loop map]. rewrite IH. cbn [add_row title columns rows].
    now rewrite <- app_assoc.
Qed.

Lemma table_loop_comparison (vendors : list Vendor) :
  TableR (table_loop vendors comparison_table) = printed_table vendors.
Proof. rewrite table_loop_spec. reflexivity. Qed.

Lemma resolve_loop_run (vendor_ids : list string) :
  forall (vendors : list Vendor) (w : World),
    resolve_loop vendor_ids vendors w =
    (Return (vendors ++ resolved (vendors_file w) vendor_ids),
     mkWorld (vendors_file w) (console w ++ warnings (vendors_file w) vendor_ids)).
Proof.
  induction vendor_ids as [|vid rest IH]; intros vendors w.
  - cbn. rewrite !app_nil_r. now destruct w.
  - cbn [resolve_loop resolved warnings]. unfold bind at 1.
    unfold get_vendor, bind, load_data, ret.
    destruct (find_vendor (vendors_file w) vid) as [v|].
    + rewrite IH. now rewrite <- app_assoc.
    + unfold console_print. rewrite IH. cbn [vendors_file console].
      now rewrite <- app_assoc.
Qed.


Lemma compare_nonempty_run (v : Vendor) (rest : list Vendor) (w : World) :
  compare (v :: rest) w =
  (Return tt,
   mkWorld (vendors_file w)
     (console w ++ [printed_table (v :: rest);
                    recommendation (Py.max_scan key_score v rest)])).
Proof.
  unfold compare. cbn [Py.truthy negb].
  rewrite table_loop_comparison.
  unfold bind, console_print, best_vendor, ret. cbn [vendors_file console].
  now rewrite <- app_assoc.
Qed.

Lemma compare_vendors_run (vendor_ids : list string) (w : World) :
  compare_vendors vendor_ids w =
  compare (resolved (vendors_file w) vendor_ids)
    (mkWorld (vendors_file w) (console w ++ warnings (vendors_file w) vendor_ids)).
Proof.
  unfold compare_vendors, bind. rewrite resolve_loop_run. reflexivity.
Qed.

Lemma compare_keeps_file (vendors : list Vendor) (w : World) :
  vendors_file (snd (compare vendors w)) = vendors_file w.
Proof.
  destruct vendors as [|v rest].
  - reflexivity.
  - now rewrite compare_nonempty_run.
Qed.


End Runs.

(* ================================================================== *)
(** * The properties of the specification *)

Lemma acme_reviewed_in_domain : in_domain Sample.acme_reviewed.
Proof.
  unfold in_domain, Sample.acme_reviewed, Sample.rated.
  cbn [price_rating delivery_time reviews].
  repeat split; try (unfold Qle; cbn; lia).
  repeat constructor; unfold rating_in_domain; cbn; unfold Qle; cbn; lia.
Qed.

(** C1, amended.  The review factor is [0.1] when [reviews] is empty, in the
    table loop and in the key of [max]; it is [(5 - average) / 5 * 0.2],
    with the average the sum of the ratings (a missing rating counts [0])
    over their number, when [reviews] is non-empty and that average is
    positive.  The penalty [0.1] of a vendor without reviews equals the
    factor of a vendor whose average is [2.5]; it is strictly smaller than
    the factor that the key of [max] gives a non-empty review list of
    average [0]. *)
Theorem review_factor_cases (v : Vendor) :
  (reviews v = [] -> review_factor v = 0.1 /\ key_review_factor v = 0.1) /\
  (reviews v <> [] -> 0 < avg_review v ->
     avg_review v = Py.sum get_rating (reviews v) / Py.len (reviews v) /\
     review_factor v = (5 - avg_review v) / 5 * 0.2 /\
     key_review_factor v = (5 - avg_review v) / 5 * 0.2) /\
  (reviews v <> [] -> avg_review v == 2.5 ->
     review_factor v == 0.1 /\ key_review_factor v == 0.1) /\
  (reviews v <> [] -> avg_review v == 0 -> 0.1 < key_review_factor v).
Proof.
  split; [|split; [|split]].
  - intro E. split.
    + now apply review_factor_empty.
    + now apply key_review_factor_empty.
  - intros N P. split; [|split].
    + now apply avg_review_nonempty.
    + now apply review_factor_positive.
    + now apply key_review_factor_nonempty.
  - intros N E. split.
    + rewrite review_factor_positive by lra. qconsts. lra.
    + rewrite key_review_factor_nonempty by assumption. qconsts. lra.
  - intros N E. rewrite key_review_factor_nonempty by assumption. qconsts. lra.
Qed.

Lemma review_factor_cases_witness :
  (reviews Sample.unreviewed = [] /\
   review_factor Sample.unreviewed = 0.1 /\
   key_review_factor Sample.unreviewed = 0.1) /\
  (reviews Sample.one_star <> [] /\ 0 < avg_review Sample.one_star /\
   review_factor Sample.one_star = (5 - avg_review Sample.one_star) / 5 * 0.2) /\
  (reviews Sample.middling <> [] /\ avg_review Sample.middling == 2.5 /\
   review_factor Sample.middling == 0.1) /\
  (reviews Sample.blank <> [] /\ avg_review Sample.blank == 0 /\
   0.1 < key_review_factor Sample.blank).
Proof.
  assert (E0 : reviews Sample.unreviewed = []) by reflexivity.
  assert (N1 : reviews Sample.one_star <> []) by discriminate.
  assert (P1 : 0 < avg_review Sample.one_star) by reflexivity.
  assert (N2 : reviews Sample.middling <> []) by discriminate.
  assert (A2 : avg_review Sample.middling == 2.5) by reflexivity.
  assert (N3 : reviews Sample.blank <> []) by discriminate.
  assert (A3 : avg_review Sample.blank == 0) by reflexivity.
  split; [|split; [|split]].
  - split; [exact E0|].
    exact (proj1 (review_factor_cases Sample.unreviewed) E0).
  - split; [exact N1|]. split; [exact P1|].
    exact (proj1 (proj2 (proj1 (proj2 (review_factor_cases Sample.one_star)) N1 P1))).
  - split; [exact N2|]. split; [exact A2|].
    exact (proj1 (proj1 (proj2 (proj2 (review_factor_cases Sample.middling))) N2 A2)).
  - split; [exact N3|]. split; [exact A3|].
    exact (proj2 (proj2 (proj2 (review_factor_cases Sample.blank))) N3 A3).
Defined.

(** C1 as stated fails: a vendor whose two reviews average [2.5] has review
    factor [0.1], the penalty of a vendor without reviews, so the penalty is
    not strictly worse. *)
Lemma empty_penalty_equals_average_2_5 :
  reviews Sample.unreviewed = [] /\
  avg_review Sample.middling == 2.5 /\
  ~ review_factor Sample.middling < review_factor Sample.unreviewed /\
  ~ key_review_factor Sample.middling < key_review_factor Sample.unreviewed.
Proof.
  split; [reflexivity|]. split; [reflexivity|].
  split; intro H; vm_compute in H; discriminate H.
Qed.

(** C3, at failing inputs.  For Acme Supplies (no reviews) the table loop
    computes [89/15] before rounding and the key of [max] computes
    [1439/150]: the key lacks the factor [10].  For a vendor whose only
    review has no rating the table loop uses the review factor [0.1] and the
    key uses [0.2]; the table then shows that vendor with the highest score
    while another vendor is recommended. *)
Theorem formula_copies_disagree :
  raw_score Sample.acme == 89 # 15 /\
  key_score Sample.acme == 1439 # 150 /\
  ~ raw_score Sample.acme == key_score Sample.acme /\
  reviews Sample.blank <> [] /\
  review_factor Sample.blank == 0.1 /\
  key_review_factor Sample.blank == 0.2 /\
  overall_score Sample.cheap < overall_score Sample.blank /\
  best_vendor [Sample.blank; Sample.cheap] Sample.store = (Return Sample.cheap, Sample.store).
Proof.
  repeat split; try reflexivity; try discriminate.
Qed.

(** C4, at a failing input.  Two vendors equal up to their reviews: the
    average of the first is [0] (one review, without a rating), of the
    second [1]; the table score of the second is lower. *)
Theorem score_drops_as_average_rises :
  Sample.one_star = with_reviews Sample.blank [Sample.rated 1] /\
  reviews Sample.blank = [Sample.unrated] /\
  avg_review Sample.blank == 0 /\
  avg_review Sample.one_star == 1 /\
  overall_score Sample.blank == 8.6 /\
  overall_score Sample.one_star == 8 /\
  ~ overall_score Sample.blank <= overall_score Sample.one_star /\
  key_score Sample.blank <= key_score Sample.one_star.
Proof.
  repeat split; try reflexivity; try discriminate.
  intro H. vm_compute in H. apply H. reflexivity.
Qed.

(** C5.  Acme Supplies (6.5, 3.5, no reviews) scores 5.9; MegaCorp (4.2,
    5.0, no reviews) scores 6.7 and is recommended among the two; Acme with
    two reviews of rating 5 scores 6.9, strictly more than without. *)
Theorem concrete_scenarios :
  (price_factor Sample.acme == 0.26 /\ review_factor Sample.acme == 0.1 /\
   overall_score Sample.acme == 5.9) /\
  (price_factor Sample.megacorp == 0.168 /\ review_factor Sample.megacorp == 0.1 /\
   overall_score Sample.megacorp == 6.7) /\
  best_vendor [Sample.acme; Sample.megacorp] Sample.store
    = (Return Sample.megacorp, Sample.store) /\
  compare_vendors ["id-acme"; "id-mega"] Sample.store
    = (Return tt,
       mkWorld (vendors_file Sample.store)
         [printed_table [Sample.acme; Sample.megacorp];
          recommendation Sample.megacorp]) /\
  (review_factor Sample.acme_reviewed == 0 /\
   overall_score Sample.acme_reviewed == 6.9) /\
  overall_score Sample.acme < overall_score Sample.acme_reviewed.
Proof.
  repeat split; reflexivity.
Qed.

(** C6.  For a vendor in the declared domains (price rating in [1, 10],
    delivery time at least 0, every rating present and in [1, 5]) the score
    lies in [0, 10] and is a whole number of tenths. *)
Theorem score_in_range (v : Vendor) :
  in_domain v ->
  (0 <= overall_score v /\ overall_score v <= 10) /\
  exists n : Z, overall_score v == inject_Z n * 0.1.
Proof.
  intro Hdom. split.
  - destruct (raw_score_bounds v Hdom) as [H1 H2].
    destruct (round_half_even_between 4 96 (raw_score v * 10)) as [K1 K2].
    + change (inject_Z 4) with 4. lra.
    + change (inject_Z 96) with 96. lra.
    + apply (proj2 (inject_Z_le_iff _ _)) in K1, K2.
      change (inject_Z 4) with 4 in K1. change (inject_Z 96) with 96 in K2.
      rewrite overall_score_tenths. split; lra.
  - exists (Py.round_half_even (raw_score v * 10)). apply overall_score_tenths.
Qed.

Lemma score_in_range_witness :
  in_domain Sample.acme_reviewed /\
  (0 <= overall_score Sample.acme_reviewed /\ overall_score Sample.acme_reviewed <= 10) /\
  exists n : Z, overall_score Sample.acme_reviewed == inject_Z n * 0.1.
Proof.
  split; [exact acme_reviewed_in_domain|].
  exact (score_in_range Sample.acme_reviewed acme_reviewed_in_domain).
Defined.

(** C8.  Two records equal up to delivery times that are both at least 30
    days have the same delivery factor and the same score. *)
Theorem delivery_clamp (v : Vendor) (d1 d2 : Q) :
  30 <= d1 -> 30 <= d2 ->
  delivery_factor (with_delivery_time v d1) == delivery_factor (with_delivery_time v d2) /\
  overall_score (with_delivery_time v d1) = overall_score (with_delivery_time v d2) /\
  key_score (with_delivery_time v d1) == key_score (with_delivery_time v d2).
Proof.
  intros H1 H2.
  assert (E : Py.min d1 30 == Py.min d2 30)
    by (rewrite (min_ge d1 30 H1), (min_ge d2 30 H2); reflexivity).
  assert (F : delivery_factor (with_delivery_time v d1)
              == delivery_factor (with_delivery_time v d2)).
  { unfold delivery_factor. cbn [with_delivery_time delivery_time]. now rewrite E. }
  split; [exact F|]. split.
  - apply round1_comp. unfold raw_score. rewrite F. reflexivity.
  - unfold key_score. cbn [with_delivery_time delivery_time price_rating].
    rewrite E. reflexivity.
Qed.

Lemma delivery_clamp_witness :
  30 <= 40 /\ 30 <= 90 /\
  overall_score (with_delivery_time Sample.slow 40)
  = overall_score (with_delivery_time Sample.slow 90).
Proof.
  assert (H1 : 30 <= 40) by (unfold Qle; cbn; lia).
  assert (H2 : 30 <= 90) by (unfold Qle; cbn; lia).
  split; [exact H1|]. split; [exact H2|].
  exact (proj1 (proj2 (delivery_clamp Sample.slow 40 90 H1 H2))).
Defined.

(* The properties of the printed rows and of the recommendation depend on
   float rounding; they are stated in [Binary64Facts]. *)




(** C10.  [compare_vendors] leaves the stored records as they were: the file
    is unchanged, so every record has the same price rating, delivery time
    and reviews after the call, and every identifier resolves as before. *)
Theorem compare_vendors_keeps_records (vendor_ids : list string) (w : World) :
  let w' := snd (compare_vendors vendor_ids w) in
  vendors_file w' = vendors_file w /\
  (forall (i : nat) (v : Vendor),
     nth_error (vendors_file w) i = Some v ->
     exists v' : Vendor,
       nth_error (vendors_file w') i = Some v' /\
       price_rating v' = price_rating v /\
       delivery_time v' = delivery_time v /\
       reviews v' = reviews v) /\
  (forall vid : string, fst (get_vendor vid w') = fst (get_vendor vid w)).
Proof.
  cbv zeta.
  assert (E : vendors_file (snd (compare_vendors vendor_ids w)) = vendors_file w).
  { rewrite compare_vendors_run, compare_keeps_file. reflexivity. }
  split; [exact E|]. split.
  - intros i v Hi. exists v. rewrite E. auto.
  - intro vid. unfold get_vendor, bind, load_data, ret. cbn [fst].
    now rewrite E.
Qed.

Lemma compare_vendors_keeps_records_witness :
  nth_error (vendors_file Sample.store) 1 = Some Sample.megacorp /\
  exists v' : Vendor,
    nth_error
      (vendors_file (snd (compare_vendors ["id-mega"; "id-acme"] Sample.store))) 1
    = Some v' /\
    price_rating v' = price_rating Sample.megacorp /\
    delivery_time v' = delivery_time Sample.megacorp /\
    reviews v' = reviews Sample.megacorp.
Proof.
  assert (H : nth_error (vendors_file Sample.store) 1 = Some Sample.megacorp)
    by reflexivity.
  split; [exact H|].
  exact (proj1 (proj2 (compare_vendors_keeps_records
                         ["id-mega"; "id-acme"] Sample.store))
           1%nat Sample.megacorp H).
Defined.

(** For contrast, a writer of the store does change it. *)
Example delete_vendor_changes_store :
  vendors_file (snd (delete_vendor "id-acme" Sample.store))
  = [Sample.megacorp; Sample.acme_reviewed].
Proof. reflexivity. Qed.

(* ================================================================== *)
(** * Further properties of the vendor store and of the comparison *)

Section VendorStore.

Lemma find_vendor_split (vendors : list Vendor) (vid : string) (v : Vendor) :
  find_vendor vendors vid = Some v ->
  exists before after,
    vendors = before ++ v :: after /\ id v = vid /\
    forall u, In u before -> id u <> vid.
Proof.
  induction vendors as [|x rest IH]; cbn [find_vendor]; [discriminate|].
  destruct (String.eqb (id x) vid) eqn:E.
  - intro H. injection H as <-. apply String.eqb_eq in E.
    exists [], rest. split; [reflexivity|]. split; [exact E|]. intros u [].
  - intro H. destruct (IH H) as (b & a & -> & Hv & Hb).
    apply String.eqb_neq in E.
    exists (x :: b), a. split; [reflexivity|]. split; [exact Hv|].
    intros u [<-|Hu]; [exact E | now apply Hb].
Qed.

Lemma find_vendor_none (vendors : list Vendor) (vid : string) :
  find_vendor vendors vid = None <-> forall u, In u vendors -> id u <> vid.
Proof.
  induction vendors as [|x rest IH]; cbn [find_vendor].
  - split; [intros _ u [] | reflexivity].
  - destruct (String.eqb (id x) vid) eqn:E.
    + apply String.eqb_eq in E. split; [discriminate|].
      intro H. exfalso. apply (H x); [now left | exact E].
    + apply String.eqb_neq in E. rewrite IH. split.
      * intros H u [<-|Hu]; [exact E | now apply H].
      * intros H u Hu. apply H. now right.
Qed.



Lemma find_vendor_skip (before after : list Vendor) (vid : string) :
  (forall u, In u before -> id u <> vid) ->
  find_vendor (before ++ after) vid = find_vendor after vid.
Proof.
  induction before as [|x before IH]; intro H; [reflexivity|].
  cbn [app find_vendor].
  assert (E : String.eqb (id x) vid = false)
    by (apply String.eqb_neq, H; now left).
  rewrite E. apply IH. intros u Hu. apply H. now right.
Qed.

Lemma find_vendor_without (before after : list Vendor) (v : Vendor)
  (other : string) :
  other <> id v ->
  find_vendor (before ++ after) other = find_vendor (before ++ v :: after) other.
Proof.
  intro N. induction before as [|x before IH]; cbn [app find_vendor].
  - assert (E : String.eqb (id v) other = false)
      by (apply String.eqb_neq; congruence).
    now rewrite E.
  - destruct (String.eqb (id x) other); [reflexivity | exact IH].
Qed.

Lemma remove_vendor_split (before after : list Vendor) (v : Vendor) :
  (forall u, In u before -> id u <> id v) ->
  remove_vendor (before ++ v :: after) (id v) = Some (before ++ after).
Proof.
  induction before as [|x before IH]; intro H; cbn [app remove_vendor].
  - now rewrite String.eqb_refl.
  - assert (E : String.eqb (id x) (id v) = false)
      by (apply String.eqb_neq, H; now left).
    rewrite E, IH; [reflexivity|]. intros u Hu. apply H. now right.
Qed.

Lemma remove_vendor_none (vendors : list Vendor) (vid : string) :
  find_vendor vendors vid = None -> remove_vendor vendors vid = None.
Proof.
  induction vendors as [|x rest IH]; cbn [find_vendor remove_vendor];
    [reflexivity|].
  destruct (String.eqb (id x) vid); [discriminate|].
  intro H. now rewrite IH.
Qed.

(** X1.  [get_vendor] returns the first stored record with the given
    identifier and never one with another identifier; it returns [None]
    exactly when no stored record has the identifier; it changes nothing. *)
Theorem get_vendor_first (vid : string) (w : World) :
  snd (get_vendor vid w) = w /\
  (forall v, fst (get_vendor vid w) = Return (Some v) ->
     exists before after,
       vendors_file w = before ++ v :: after /\ id v = vid /\
       forall u, In u before -> id u <> vid) /\
  (fst (get_vendor vid w) = Return None <->
   forall u, In u (vendors_file w) -> id u <> vid).
Proof.
  unfold get_vendor, bind, load_data, ret. cbn [fst snd].
  split; [reflexivity|]. split.
  - intros v H. injection H as H. now apply find_vendor_split.
  - rewrite <- find_vendor_none. split; [intro H; now injection H | now intros ->].
Qed.

Lemma get_vendor_first_witness :
  fst (get_vendor "id-mega" Sample.store) = Return (Some Sample.megacorp) /\
  exists before after,
    vendors_file Sample.store = before ++ Sample.megacorp :: after /\
    id Sample.megacorp = "id-mega" /\
    forall u, In u before -> id u <> "id-mega".
Proof.
  assert (H : fst (get_vendor "id-mega" Sample.store)
              = Return (Some Sample.megacorp)) by reflexivity.
  split; [exact H|].
  exact (proj1 (proj2 (get_vendor_first "id-mega" Sample.store))
           Sample.megacorp H).
Defined.

(** X2.  [delete_vendor] removes exactly the record that [get_vendor]
    finds and returns [True]; every other identifier resolves as before,
    and when identifiers are unique the deleted one no longer resolves.
    When [get_vendor] finds nothing it returns [False] and changes
    nothing. *)
Theorem delete_vendor_effect (vid : string) (w : World) :
  (fst (get_vendor vid w) = Return None ->
   delete_vendor vid w = (Return false, w)) /\
  (forall v, fst (get_vendor vid w) = Return (Some v) ->
     exists before after,
       vendors_file w = before ++ v :: after /\
       delete_vendor vid w
       = (Return true, mkWorld (before ++ after) (console w)) /\
       (forall other, other <> vid ->
          fst (get_vendor other (snd (delete_vendor vid w)))
          = fst (get_vendor other w)) /\
       (NoDup (map id (vendors_file w)) ->
          fst (get_vendor vid (snd (delete_vendor vid w))) = Return None)).
Proof.
  unfold get_vendor, delete_vendor, bind, load_data, save_data, ret.
  cbn [fst snd]. split.
  - intro H. injection H as H. now rewrite (remove_vendor_none _ _ H).
  - intros v H. injection H as H.
    destruct (find_vendor_split _ _ _ H) as (before & after & E & Hv & Hb).
    exists before, after. split; [exact E|]. subst vid.
    rewrite E, (remove_vendor_split _ _ _ Hb). cbn [fst snd vendors_file].
    split; [reflexivity|]. split.
    + intros other N. f_equal. now apply find_vendor_without.
    + intro ND. f_equal. apply find_vendor_none. intros u Hu Eu.
      rewrite map_app in ND. cbn [map] in ND.
      apply NoDup_remove_2 in ND. apply ND. rewrite <- Eu, <- map_app.
      now apply in_map.
Qed.

Lemma delete_vendor_effect_witness :
  fst (get_vendor "id-mega" Sample.store) = Return (Some Sample.megacorp) /\
  exists before after,
    vendors_file Sample.store = before ++ Sample.megacorp :: after /\
    delete_vendor "id-mega" Sample.store
    = (Return true, mkWorld (before ++ after) (console Sample.store)).
Proof.
  assert (H : fst (get_vendor "id-mega" Sample.store)
              = Return (Some Sample.megacorp)) by reflexivity.
  split; [exact H|].
  destruct (proj2 (delete_vendor_effect "id-mega" Sample.store)
              Sample.megacorp H) as (before & after & E & R & _).
  exists before, after. split; [exact E | exact R].
Defined.

End VendorStore.

Section Comparison.


(** X5.  With the other fields fixed, the table score never rises when the
    price rating rises, and never rises when the delivery time rises. *)
Theorem score_falls_with_price_and_delay (v : Vendor) (lower higher : Q) :
  lower <= higher ->
  overall_score (with_price_rating v higher)
  <= overall_score (with_price_rating v lower) /\
  overall_score (with_delivery_time v higher)
  <= overall_score (with_delivery_time v lower).
Proof.
  intro H. split.
  - now apply overall_score_price_mono.
  - now apply overall_score_delivery_mono.
Qed.

Lemma score_falls_with_price_and_delay_witness :
  2 <= 7 /\
  overall_score (with_price_rating Sample.slow 7)
  <= overall_score (with_price_rating Sample.slow 2) /\
  overall_score (with_delivery_time Sample.slow 7)
  <= overall_score (with_delivery_time Sample.slow 2).
Proof.
  assert (H : 2 <= 7) by (unfold Qle; cbn; lia).
  split; [exact H|].
  exact (score_falls_with_price_and_delay Sample.slow 2 7 H).
Defined.

(** X6.  With price rating and delivery time fixed, a review list with a
    higher average never scores lower in the table, as long as the lower
    average is positive; in the key of [max] this holds for all non-empty
    review lists. *)
Theorem score_rises_with_average (v : Vendor) (worse better : list Review) :
  avg_review (with_reviews v worse) <= avg_review (with_reviews v better) ->
  (0 < avg_review (with_reviews v worse) ->
   overall_score (with_reviews v worse)
   <= overall_score (with_reviews v better)) /\
  (worse <> [] -> better <> [] ->
   key_score (with_reviews v worse) <= key_score (with_reviews v better)).
Proof.
  intro H. split.
  - intro P. now apply overall_score_average_mono.
  - intros N1 N2. now apply key_score_average_mono.
Qed.

Lemma score_rises_with_average_witness :
  avg_review (with_reviews Sample.slow [Sample.rated 2])
  <= avg_review (with_reviews Sample.slow [Sample.rated 3; Sample.rated 5]) /\
  0 < avg_review (with_reviews Sample.slow [Sample.rated 2]) /\
  overall_score (with_reviews Sample.slow [Sample.rated 2])
  <= overall_score (with_reviews Sample.slow [Sample.rated 3; Sample.rated 5]).
Proof.
  assert (H : avg_review (with_reviews Sample.slow [Sample.rated 2])
              <= avg_review (with_reviews Sample.slow
                               [Sample.rated 3; Sample.rated 5]))
    by (vm_compute; discriminate).
  assert (P : 0 < avg_review (with_reviews Sample.slow [Sample.rated 2]))
    by reflexivity.
  split; [exact H|]. split; [exact P|].
  exact (proj1 (score_rises_with_average Sample.slow _ _ H) P).
Defined.

End Comparison.

Section Menu.














End Menu.

(* ================================================================== *)
(** * The comparison in binary64 arithmetic: properties *)

Module Binary64Facts.
Import Floats.
Import Binary64.

Set Warnings "-inexact-float".
#[local] Open Scope float_scope.

Section Order.

Ltac cmp_cases :=
  repeat match goal with
  | H : context [Z.compare ?a ?b] |- _ => destruct (Z.compare_spec a b)
  | |- context [Z.compare ?a ?b] => destruct (Z.compare_spec a b)
  | H : context [Pos.compare_cont Eq ?a ?b] |- _ =>
      change (Pos.compare_cont Eq a b) with (Pos.compare a b) in *;
      destruct (Pos.compare_spec a b)
  | |- context [Pos.compare_cont Eq ?a ?b] =>
      change (Pos.compare_cont Eq a b) with (Pos.compare a b) in *;
      destruct (Pos.compare_spec a b)
  end.

Ltac sf_cases :=
  intros;
  repeat match goal with
  | x : spec_float |- _ => destruct x as [[]|[]| |[] ? ?]
  end;
  cbn in *; try discriminate; try reflexivity; try tauto;
  cmp_cases; cbn in *; subst; try discriminate; try reflexivity; try lia.






Lemma SFcompare_refl (a : spec_float) :
  a <> S754_nan -> SFcompare a a = Some Eq.
Proof. sf_cases. Qed.

Lemma SFcompare_nan_r (a : spec_float) : SFcompare a S754_nan = None.
Proof. now destruct a. Qed.

Lemma is_nan_spec (x : float) : is_nan x = true <-> Prim2SF x = S754_nan.
Proof.
  unfold is_nan. rewrite eqb_spec. unfold SFeqb. split.
  - intro H. destruct (Prim2SF x) eqn:E; try reflexivity;
      rewrite SFcompare_refl in H by discriminate; discriminate H.
  - intros ->. reflexivity.
Qed.

Lemma is_nan_false (x : float) : is_nan x = false <-> Prim2SF x <> S754_nan.
Proof.
  rewrite <- is_nan_spec. destruct (is_nan x); split; congruence.
Qed.

Lemma ltb_true (x y : float) :
  (x <? y) = true <-> SFcompare (Prim2SF x) (Prim2SF y) = Some Lt.
Proof.
  rewrite ltb_spec. unfold SFltb.
  destruct (SFcompare _ _) as [[]|]; split; congruence.
Qed.


(** Only numbers are below or above anything. *)
Lemma ltb_not_nan (x y : float) :
  (x <? y) = true -> is_nan x = false /\ is_nan y = false.
Proof.
  rewrite ltb_true, !is_nan_false. intro H.
  split; intro E; rewrite E in H;
    [cbn in H | rewrite SFcompare_nan_r in H]; discriminate.
Qed.




End Order.

Section Scan.

Context {A : Type} (key : A -> float).

Lemma max_scan_cons (best x : A) (xs : list A) :
  max_scan key best (x :: xs)
  = max_scan key (if gt (key x) (key best) then x else best) xs.
Proof. reflexivity. Qed.


(** A best item whose key is a number is replaced only by such items. *)
Lemma max_scan_number (xs : list A) :
  forall best : A,
    is_nan (key best) = false -> is_nan (key (max_scan key best xs)) = false.
Proof.
  induction xs as [|x xs IH]; intros best H; [exact H|].
  rewrite max_scan_cons. unfold gt.
  destruct (key best <? key x) eqn:E; apply IH; [|exact H].
  now apply ltb_not_nan in E.
Qed.





End Scan.

Section Runs.

Variable python : Version.











End Runs.

(* ------------------------------------------------------------------ *)
(** ** What the program prints and whom it recommends *)

(** The arithmetic is the interpreter's: a real tie can be a strict
    inequality of floats, a halfway case is rounded as the float lies, and
    a NaN key is neither below nor above any other. *)
Example binary64_samples (python : Version) :
  (key_score python plain <? key_score python praised) = true /\
  best_vendor python [plain; praised] store = (Return praised, store) /\
  overall_score python halfway = 8.3 /\
  format_1f (avg_review python halfway_rated) = "4.3"%string /\
  table_row python acme
  = [Text "Acme Supplies"; Str 6.5; Str 3.5; Text "No reviews"; Str 5.9] /\
  table_row python acme_reviewed
  = [Text "Acme Reviewed"; Str 6.5; Str 3.5; Text "5.0"; Str 6.9] /\
  best_vendor python [unpriced; acme] store = (Return unpriced, store) /\
  best_vendor python [acme; unpriced] store = (Return acme, store).
Proof. destruct python; vm_compute; repeat split. Qed.








(** X4.  The recommendation can disagree with the table: [Level] and
    [Ahead] have the same key as floats, so [Level], which comes first, is
    recommended, while the table shows 7.9 for [Level] and 8.0 for
    [Ahead]. *)
Theorem recommendation_can_disagree_with_table :
  forall python : Version,
    key_score python level = key_score python ahead /\
    best_vendor python [level; ahead] store = (Return level, store) /\
    overall_score python level = 7.9 /\
    overall_score python ahead = 8 /\
    (overall_score python level <? overall_score python ahead) = true /\
    compare python [level; ahead] store
    = (Return tt,
       mkWorld (vendors_file store)
         [TableR (mkTable "Vendor Comparison"
                    ["Vendor"; "Price Rating"; "Delivery Time (days)";
                     "Avg. Review"; "Overall Score"]%string
                    [[Text "Level"; Str 1.125; Str 4.5; Text "No reviews";
                      Str 7.9];
                     [Text "Ahead"; Str 1.75; Str 2.625; Text "No reviews";
                      Str 8]]);
          recommendation level]).
Proof. intro python. destruct python; vm_compute; repeat split. Qed.

End Binary64Facts.

(* ================================================================== *)
(** * Properties of the purchase store and of the approval workflow *)

Module StoreFacts.
Import Store.

Section Dicts.

Lemma dict_get_set_same (d : Dict) (k : string) (v : Value) :
  dict_get (dict_set d k v) k = Some v.
Proof.
  induction d as [|[k0 v0] d IH]; cbn.
  - now rewrite String.eqb_refl.
  - destruct (String.eqb k0 k) eqn:E; cbn; rewrite E; [reflexivity | exact IH].
Qed.

Lemma dict_get_set_other (d : Dict) (k k' : string) (v : Value) :
  k <> k' -> dict_get (dict_set d k v) k' = dict_get d k'.
Proof.
  intro N. induction d as [|[k0 v0] d IH]; cbn.
  - apply String.eqb_neq in N. now rewrite N.
  - destruct (String.eqb k0 k) eqn:E; cbn.
    + apply String.eqb_eq in E. subst k0.
      apply String.eqb_neq in N. now rewrite N.
    + destruct (String.eqb k0 k'); [reflexivity | exact IH].
Qed.

Lemma dict_has_set (d : Dict) (k k' : string) (v : Value) :
  dict_has (dict_set d k v) k' = dict_has d k' || String.eqb k k'.
Proof.
  unfold dict_has. destruct (String.eqb k k') eqn:E.
  - apply String.eqb_eq in E. subst k'. rewrite dict_get_set_same.
    now rewrite orb_true_r.
  - apply String.eqb_neq in E. rewrite dict_get_set_other by exact E.
    now rewrite orb_false_r.
Qed.

Lemma dict_has_true (d : Dict) (k : string) :
  dict_has d k = true -> exists v, dict_get d k = Some v.
Proof. unfold dict_has. destruct (dict_get d k); [eauto | discriminate]. Qed.

Lemma dict_get_default_some (d : Dict) (k : string) (v dflt : Value) :
  dict_get d k = Some v -> dict_get_default d k dflt = v.
Proof. unfold dict_get_default. now intros ->. Qed.

(** Setting a key that is present keeps the keys and their order. *)
Lemma dict_set_keys (d : Dict) (k : string) (v : Value) :
  dict_has d k = true -> map fst (dict_set d k v) = map fst d.
Proof.
  unfold dict_has. induction d as [|[k0 v0] d IH]; cbn.
  - discriminate.
  - destruct (String.eqb k0 k) eqn:E; cbn; [reflexivity|].
    intro H. now rewrite IH.
Qed.

Lemma apply_updates_keys (updates p : Dict) :
  map fst (apply_updates p updates) = map fst p.
Proof.
  revert p. induction updates as [|[k v] updates IH]; intro p; cbn.
  - reflexivity.
  - destruct (dict_has p k) eqn:H; cbn; [|apply IH].
    destruct (protected k); cbn; [apply IH|].
    rewrite IH. now apply dict_set_keys.
Qed.

Lemma dict_has_keys (d : Dict) (k : string) :
  dict_has d k = true <-> In k (map fst d).
Proof.
  unfold dict_has. induction d as [|[k0 v0] d IH]; cbn.
  - split; [discriminate | tauto].
  - destruct (String.eqb k0 k) eqn:E.
    + apply String.eqb_eq in E. split; auto.
    + apply String.eqb_neq in E. rewrite IH. split; [auto | intros [H|H]; [contradiction | exact H]].
Qed.

Lemma dict_has_same_keys (d d' : Dict) (k : string) :
  map fst d = map fst d' -> dict_has d k = dict_has d' k.
Proof.
  intro E. apply eq_true_iff_eq. rewrite !dict_has_keys, E. reflexivity.
Qed.

Lemma apply_updates_has (updates p : Dict) (k : string) :
  dict_has (apply_updates p updates) k = dict_has p k.
Proof. apply dict_has_same_keys, apply_updates_keys. Qed.

(** The two protected keys keep their values. *)
Lemma apply_updates_protected (updates p : Dict) (k : string) :
  protected k = true -> dict_get (apply_updates p updates) k = dict_get p k.
Proof.
  intro P. revert p. induction updates as [|[k0 v] updates IH]; intro p; cbn.
  - reflexivity.
  - destruct (dict_has p k0 && negb (protected k0)) eqn:H; [|apply IH].
    rewrite IH. apply dict_get_set_other. intros ->.
    rewrite P in H. cbn in H. now rewrite andb_false_r in H.
Qed.

(** A key that the updates do not name keeps its value. *)
Lemma apply_updates_untouched (updates p : Dict) (k : string) :
  ~ In k (map fst updates) -> dict_get (apply_updates p updates) k = dict_get p k.
Proof.
  revert p. induction updates as [|[k0 v] updates IH]; intros p N; cbn.
  - reflexivity.
  - cbn in N.
    destruct (dict_has p k0 && negb (protected k0)).
    + rewrite IH by tauto. apply dict_get_set_other. tauto.
    + apply IH. tauto.
Qed.

End Dicts.

Section Loops.

Ltac io := unfold bind, ret, raise, subscript, load_data, save_data,
  console_print, draw_uuid, read_clock in *.

Lemma well_formed_keys (d : Dict) :
  well_formed d = true ->
  exists v1 v2 v3 v4 v5 v6 v7,
    dict_get d "item_name" = Some v1 /\ dict_get d "quantity" = Some v2 /\
    dict_get d "requester" = Some v3 /\ dict_get d "id" = Some v4 /\
    dict_get d "status" = Some v5 /\ dict_get d "created_at" = Some v6 /\
    dict_get d "updated_at" = Some v7.
Proof.
  unfold well_formed, required_keys. cbn [forallb]. unfold dict_has.
  destruct (dict_get d "item_name") as [v1|]; [|discriminate].
  destruct (dict_get d "quantity") as [v2|]; [|discriminate].
  destruct (dict_get d "requester") as [v3|]; [|discriminate].
  destruct (dict_get d "id") as [v4|]; [|discriminate].
  destruct (dict_get d "status") as [v5|]; [|discriminate].
  destruct (dict_get d "created_at") as [v6|]; [|discriminate].
  destruct (dict_get d "updated_at") as [v7|]; [|discriminate].
  intros _. exists v1, v2, v3, v4, v5, v6, v7. repeat split.
Qed.

Lemma from_dict_well_formed (d : Dict) (s : Site) :
  well_formed d = true -> from_dict d s = (Return (decoded d), after_init s).
Proof.
  intro W. destruct (well_formed_keys d W)
    as (v1 & v2 & v3 & v4 & v5 & v6 & v7 & E1 & E2 & E3 & E4 & E5 & E6 & E7).
  unfold from_dict, Purchase_init, decoded, after_init. io.
  rewrite E1, E2, E3, E4, E5, E6, E7. cbn.
  rewrite !(dict_get_default_some d _ _ _ E1), !(dict_get_default_some d _ _ _ E2),
    !(dict_get_default_some d _ _ _ E3), !(dict_get_default_some d _ _ _ E4),
    !(dict_get_default_some d _ _ _ E5), !(dict_get_default_some d _ _ _ E6),
    !(dict_get_default_some d _ _ _ E7).
  reflexivity.
Qed.

Lemma from_dict_ill_formed (d : Dict) (s : Site) :
  well_formed d = false -> fst (from_dict d s) = Raise "KeyError".
Proof.
  unfold well_formed, required_keys. cbn [forallb]. unfold dict_has.
  unfold from_dict, Purchase_init. io.
  destruct (dict_get d "item_name"); [|reflexivity].
  destruct (dict_get d "quantity"); [|reflexivity].
  destruct (dict_get d "requester"); [|reflexivity].
  destruct (dict_get d "id"); [|reflexivity].
  destruct (dict_get d "status"); [|reflexivity].
  destruct (dict_get d "created_at"); [|reflexivity].
  destruct (dict_get d "updated_at"); [|reflexivity].
  discriminate.
Qed.

Lemma from_dict_frame (d : Dict) (s : Site) :
  purchases_file (snd (from_dict d s)) = purchases_file s /\
  printed (snd (from_dict d s)) = printed s.
Proof.
  unfold from_dict, Purchase_init. io.
  destruct (dict_get d "item_name"); [|split; reflexivity].
  destruct (dict_get d "quantity"); [|split; reflexivity].
  destruct (dict_get d "requester"); [|split; reflexivity].
  destruct (dict_get d "id"); [|split; reflexivity].
  destruct (dict_get d "status"); [|split; reflexivity].
  destruct (dict_get d "created_at"); [|split; reflexivity].
  destruct (dict_get d "updated_at"); split; reflexivity.
Qed.

Lemma first_with_id_cons_other (q : Dict) (v : Value) (rest : list Dict)
  (rid : string) (before : list Dict) (p : Dict) (after : list Dict) :
  dict_get q "id" = Some v -> eq_str v rid = false ->
  first_with_id (q :: rest) rid before p after ->
  exists before', before = q :: before' /\ first_with_id rest rid before' p after.
Proof.
  intros Hq Hv (E & Hb & v' & Hp & Hv').
  destruct before as [|b before].
  - cbn in E. injection E as E1 E2. subst p. rewrite Hq in Hp.
    injection Hp as <-. congruence.
  - cbn in E. injection E as E1 E2. subst b. exists before. split; [reflexivity|].
    split; [exact E2|]. split; [|eauto].
    intros q' Hq'. apply Hb. now right.
Qed.

Lemma first_with_id_head (p : Dict) (v : Value) (rest : list Dict) (rid : string)
  (before : list Dict) (p' : Dict) (after : list Dict) :
  dict_get p "id" = Some v -> eq_str v rid = true ->
  first_with_id (p :: rest) rid before p' after ->
  before = [] /\ p' = p /\ after = rest.
Proof.
  intros Hp Hv (E & Hb & _).
  destruct before as [|b before].
  - cbn in E. injection E as E1 E2. auto.
  - cbn in E. injection E as E1 E2. subst b.
    destruct (Hb p (or_introl eq_refl)) as (v' & Hp' & Hv').
    rewrite Hp in Hp'. injection Hp' as <-. congruence.
Qed.

Lemma first_with_id_id (purchases : list Dict) (rid : string)
  (before : list Dict) (p : Dict) (after : list Dict) :
  first_with_id purchases rid before p after ->
  dict_get p "id" = Some (VStr rid).
Proof.
  intros (_ & _ & v & Hp & Hv). rewrite Hp. f_equal.
  destruct v; try discriminate. cbn in Hv. apply String.eqb_eq in Hv. now subst.
Qed.

(** ** The loop of [get_purchase] *)

Lemma get_loop_cons (q : Dict) (rest : list Dict) (rid : string) (s : Site) :
  get_loop (q :: rest) rid s
  = match dict_get q "id" with
    | None => (Raise "KeyError", s)
    | Some v =>
        if eq_str v rid
        then bind (from_dict q) (fun purchase => ret (Some purchase)) s
        else get_loop rest rid s
    end.
Proof.
  cbn [get_loop]. unfold bind at 1. unfold subscript.
  destruct (dict_get q "id") as [v|]; [|reflexivity].
  unfold ret at 1. now destruct (eq_str v rid).
Qed.

Lemma get_loop_found (purchases : list Dict) (rid : string)
  (before : list Dict) (p : Dict) (after : list Dict) (s : Site) :
  first_with_id purchases rid before p after ->
  get_loop purchases rid s
  = bind (from_dict p) (fun purchase => ret (Some purchase)) s.
Proof.
  revert before. induction purchases as [|q rest IH]; intros before F.
  - destruct F as (E & _). destruct before; discriminate E.
  - rewrite get_loop_cons.
    destruct (dict_get q "id") as [v|] eqn:Hq.
    + destruct (eq_str v rid) eqn:Hv.
      * destruct (first_with_id_head _ _ _ _ _ _ _ Hq Hv F) as (_ & -> & _).
        reflexivity.
      * destruct (first_with_id_cons_other _ _ _ _ _ _ _ Hq Hv F) as (b' & _ & F').
        now apply IH with b'.
    + exfalso. destruct F as (E & Hb & v' & Hp & Hv').
      destruct before as [|b before]; cbn in E; injection E as E1 E2.
      * subst q. congruence.
      * subst b. destruct (Hb q (or_introl eq_refl)) as (v & Hq' & _). congruence.
Qed.

Lemma get_loop_missing (purchases : list Dict) (rid : string) (s : Site) :
  none_with_id purchases rid -> get_loop purchases rid s = (Return None, s).
Proof.
  induction purchases as [|q rest IH]; intro N.
  - reflexivity.
  - rewrite get_loop_cons.
    destruct (N q (or_introl eq_refl)) as (v & Hq & Hv).
    rewrite Hq, Hv. apply IH.
    intros q' Hq'. apply N. now right.
Qed.

Lemma get_loop_frame (purchases : list Dict) (rid : string) (s : Site) :
  purchases_file (snd (get_loop purchases rid s)) = purchases_file s /\
  printed (snd (get_loop purchases rid s)) = printed s.
Proof.
  induction purchases as [|q rest IH].
  - split; reflexivity.
  - rewrite get_loop_cons.
    destruct (dict_get q "id") as [v|]; [|split; reflexivity].
    destruct (eq_str v rid); [|exact IH].
    unfold bind. pose proof (from_dict_frame q s) as [F1 F2].
    destruct (from_dict q s) as [[x|e] s']; cbn in *; auto.
Qed.

(** ** The loop of [update_purchase] *)

Lemma update_loop_cons (done : list Dict) (q : Dict) (rest : list Dict)
  (rid : string) (updates : Dict) (s : Site) :
  update_loop done (q :: rest) rid updates s
  = match dict_get q "id" with
    | None => (Raise "KeyError", s)
    | Some v =>
        if eq_str v rid
        then bind (from_dict (stamped updates q (now s (clock_reads s))))
               (fun purchase => ret (Some purchase))
               (after_save
                  (done ++ stamped updates q (now s (clock_reads s)) :: rest) s)
        else update_loop (done ++ [q]) rest rid updates s
    end.
Proof.
  cbn [update_loop]. unfold bind at 1. unfold subscript.
  destruct (dict_get q "id") as [v|]; [|reflexivity].
  unfold ret at 1. destruct (eq_str v rid); reflexivity.
Qed.

Lemma update_loop_found (purchases : list Dict) (rid : string) (updates : Dict)
  (before : list Dict) (p : Dict) (after : list Dict) :
  first_with_id purchases rid before p after ->
  forall (done : list Dict) (s : Site),
    update_loop done purchases rid updates s
    = bind (from_dict (stamped updates p (now s (clock_reads s))))
        (fun purchase => ret (Some purchase))
        (after_save
           (done ++ before ++ stamped updates p (now s (clock_reads s)) :: after)
           s).
Proof.
  revert before. induction purchases as [|q rest IH]; intros before F done s.
  - destruct F as (E & _). destruct before; discriminate E.
  - rewrite update_loop_cons.
    destruct (dict_get q "id") as [v|] eqn:Hq.
    + destruct (eq_str v rid) eqn:Hv.
      * destruct (first_with_id_head _ _ _ _ _ _ _ Hq Hv F) as (-> & -> & ->).
        reflexivity.
      * destruct (first_with_id_cons_other _ _ _ _ _ _ _ Hq Hv F) as (b' & -> & F').
        rewrite (IH b' F'). now rewrite <- app_assoc.
    + exfalso. destruct F as (E & Hb & v' & Hp & Hv').
      destruct before as [|b before]; cbn in E; injection E as E1 E2.
      * subst q. congruence.
      * subst b. destruct (Hb q (or_introl eq_refl)) as (v & Hq' & _). congruence.
Qed.

Lemma update_loop_missing (purchases : list Dict) (rid : string) (updates : Dict) :
  none_with_id purchases rid ->
  forall (done : list Dict) (s : Site),
    update_loop done purchases rid updates s = (Return None, s).
Proof.
  induction purchases as [|q rest IH]; intros N done s.
  - reflexivity.
  - rewrite update_loop_cons.
    destruct (N q (or_introl eq_refl)) as (v & Hq & Hv).
    rewrite Hq, Hv. apply IH.
    intros q' Hq'. apply N. now right.
Qed.

(** Whatever happens, the loop either leaves the site as it is or rewrites
    the first matching record. *)
Lemma update_loop_cases (purchases : list Dict) (rid : string) (updates : Dict) :
  forall (done : list Dict) (s : Site),
    snd (update_loop done purchases rid updates s) = s \/
    exists before p after,
      first_with_id purchases rid before p after /\
      purchases_file (snd (update_loop done purchases rid updates s))
      = Some (done ++ before ++ stamped updates p (now s (clock_reads s)) :: after).
Proof.
  induction purchases as [|q rest IH]; intros done s.
  - left. reflexivity.
  - rewrite update_loop_cons.
    destruct (dict_get q "id") as [v|] eqn:Hq; [|left; reflexivity].
    destruct (eq_str v rid) eqn:Hv.
    + right. exists [], q, rest. split.
      * split; [reflexivity|]. split; [intros ? []|eauto].
      * unfold bind.
        pose proof (from_dict_frame (stamped updates q (now s (clock_reads s)))
          (after_save (done ++ stamped updates q (now s (clock_reads s)) :: rest) s))
          as [F _].
        destruct (from_dict _ _) as [[x|e] s']; cbn in *; exact F.
    + destruct (IH (done ++ [q]) s) as [E|(before & p & after & F & E)].
      * left. exact E.
      * right. exists (q :: before), p, after. split.
        -- destruct F as (E1 & Hb & Hp). split; [cbn; now rewrite E1|].
           split; [|exact Hp].
           intros q' [<-|Hq']; [eauto | now apply Hb].
        -- rewrite E. now rewrite <- app_assoc.
Qed.

(** ** The loop of [delete_purchase] *)

Lemma delete_loop_cons (done : list Dict) (q : Dict) (rest : list Dict)
  (rid : string) (s : Site) :
  delete_loop done (q :: rest) rid s
  = match dict_get q "id" with
    | None => (Raise "KeyError", s)
    | Some v =>
        if eq_str v rid
        then (Return true,
              mkSite (Some (done ++ rest)) (printed s) (uuid4 s)
                (uuids_drawn s) (now s) (clock_reads s))
        else delete_loop (done ++ [q]) rest rid s
    end.
Proof.
  cbn [delete_loop]. unfold bind at 1. unfold subscript.
  destruct (dict_get q "id") as [v|]; [|reflexivity].
  unfold ret at 1. destruct (eq_str v rid); reflexivity.
Qed.

Lemma delete_loop_found (purchases : list Dict) (rid : string)
  (before : list Dict) (p : Dict) (after : list Dict) :
  first_with_id purchases rid before p after ->
  forall (done : list Dict) (s : Site),
    delete_loop done purchases rid s
    = (Return true,
       mkSite (Some (done ++ before ++ after)) (printed s) (uuid4 s)
         (uuids_drawn s) (now s) (clock_reads s)).
Proof.
  revert before. induction purchases as [|q rest IH]; intros before F done s.
  - destruct F as (E & _). destruct before; discriminate E.
  - rewrite delete_loop_cons.
    destruct (dict_get q "id") as [v|] eqn:Hq.
    + destruct (eq_str v rid) eqn:Hv.
      * destruct (first_with_id_head _ _ _ _ _ _ _ Hq Hv F) as (-> & -> & ->).
        reflexivity.
      * destruct (first_with_id_cons_other _ _ _ _ _ _ _ Hq Hv F) as (b' & -> & F').
        rewrite (IH b' F'). now rewrite <- app_assoc.
    + exfalso. destruct F as (E & Hb & v' & Hp & Hv').
      destruct before as [|b before]; cbn in E; injection E as E1 E2.
      * subst q. congruence.
      * subst b. destruct (Hb q (or_introl eq_refl)) as (v & Hq' & _). congruence.
Qed.

Lemma delete_loop_missing (purchases : list Dict) (rid : string) :
  none_with_id purchases rid ->
  forall (done : list Dict) (s : Site),
    delete_loop done purchases rid s = (Return false, s).
Proof.
  induction purchases as [|q rest IH]; intros N done s.
  - reflexivity.
  - rewrite delete_loop_cons.
    destruct (N q (or_introl eq_refl)) as (v & Hq & Hv).
    rewrite Hq, Hv. apply IH.
    intros q' Hq'. apply N. now right.
Qed.

End Loops.

(* ------------------------------------------------------------------ *)
(** ** Records and objects *)

(** X10.  [from_dict] undoes [to_dict]: decoding the dict of a purchase
    gives that purchase back (one identifier and one timestamp are drawn
    and discarded on the way). *)
Theorem from_dict_to_dict (p : Purchase) (s : Site) :
  from_dict (to_dict p) s = (Return p, after_init s).
Proof.
  rewrite from_dict_well_formed by reflexivity. now destruct p.
Qed.

(** X11.  [from_dict] succeeds exactly on the dicts that have the keys
    [item_name], [quantity], [requester], [id], [status], [created_at] and
    [updated_at]; a missing [vendor_id], [approver] or [approval_date] reads
    as [None], a missing [notes] or [approval_notes] as the empty string.
    Without one of the seven keys it raises [KeyError] and leaves file and
    console alone. *)
Theorem from_dict_required_keys (d : Dict) (s : Site) :
  (well_formed d = true ->
   exists p : Purchase,
     fst (from_dict d s) = Return p /\
     (dict_get d "id" = Some (id p) /\
      dict_get d "item_name" = Some (item_name p) /\
      dict_get d "quantity" = Some (quantity p) /\
      dict_get d "requester" = Some (requester p) /\
      dict_get d "status" = Some (status p) /\
      dict_get d "created_at" = Some (created_at p) /\
      dict_get d "updated_at" = Some (updated_at p)) /\
     vendor_id p = dict_get_default d "vendor_id" VNone /\
     notes p = dict_get_default d "notes" (VStr "") /\
     approver p = dict_get_default d "approver" VNone /\
     approval_date p = dict_get_default d "approval_date" VNone /\
     approval_notes p = dict_get_default d "approval_notes" (VStr "")) /\
  (well_formed d = false ->
   fst (from_dict d s) = Raise "KeyError" /\
   purchases_file (snd (from_dict d s)) = purchases_file s /\
   printed (snd (from_dict d s)) = printed s).
Proof.
  split.
  - intro W. exists (decoded d). rewrite (from_dict_well_formed d s W).
    destruct (well_formed_keys d W)
      as (v1 & v2 & v3 & v4 & v5 & v6 & v7 & E1 & E2 & E3 & E4 & E5 & E6 & E7).
    unfold decoded, dict_get_default. cbn.
    rewrite E1, E2, E3, E4, E5, E6, E7. repeat split.
  - intro W. split; [now apply from_dict_ill_formed|]. apply from_dict_frame.
Qed.

Lemma from_dict_required_keys_witness :
  (well_formed Desk.minimal = true /\
   exists p : Purchase,
     fst (from_dict Desk.minimal Desk.site) = Return p /\
     notes p = VStr "" /\ approver p = VNone) /\
  (well_formed Desk.broken = false /\
   fst (from_dict Desk.broken Desk.site) = Raise "KeyError").
Proof.
  assert (W1 : well_formed Desk.minimal = true) by reflexivity.
  assert (W2 : well_formed Desk.broken = false) by reflexivity.
  split.
  - split; [exact W1|].
    destruct (proj1 (from_dict_required_keys Desk.minimal Desk.site) W1)
      as (p & R & _ & _ & N & A & _).
    exists p. split; [exact R|]. split; [exact N | exact A].
  - split; [exact W2|].
    exact (proj1 (proj2 (from_dict_required_keys Desk.broken Desk.site) W2)).
Defined.

(* ------------------------------------------------------------------ *)
(** ** Creating and looking up *)

Lemma get_purchase_found (s : Site) (rid : string)
  (before : list Dict) (p : Dict) (after : list Dict) :
  first_with_id (records s) rid before p after -> well_formed p = true ->
  get_purchase rid s = (Return (Some (decoded p)), after_init s).
Proof.
  intros F W. unfold get_purchase, bind at 1, load_data.
  fold (records s). rewrite (get_loop_found _ _ _ _ _ _ F).
  unfold bind. now rewrite (from_dict_well_formed p s W).
Qed.

Lemma get_purchase_missing (s : Site) (rid : string) :
  none_with_id (records s) rid -> get_purchase rid s = (Return None, s).
Proof.
  intro N. unfold get_purchase, bind, load_data. fold (records s).
  now apply get_loop_missing.
Qed.

(** X12.  A purchase that [create_purchase] returns is pending, is stored as
    the last record of the file, and [get_purchase] with its identifier
    gives it back, provided no stored record already carries the identifier
    that [uuid4] produced. *)
Theorem get_after_create (item quantity who vendor note : Value) (s : Site) :
  none_with_id (records s) (uuid4 s (uuids_drawn s)) ->
  exists (p : Purchase) (s1 : Site),
    create_purchase item quantity who vendor note s = (Return p, s1) /\
    id p = VStr (uuid4 s (uuids_drawn s)) /\
    status p = VStr "pending" /\ approver p = VNone /\
    records s1 = records s ++ [to_dict p] /\
    fst (get_purchase (uuid4 s (uuids_drawn s)) s1) = Return (Some p).
Proof.
  intro N.
  eexists. eexists. split; [reflexivity|].
  split; [reflexivity|]. split; [reflexivity|]. split; [reflexivity|].
  split; [reflexivity|].
  match goal with
  | |- fst (get_purchase _ ?s1) = Return (Some ?p) =>
      rewrite (get_purchase_found s1 _ (records s) (to_dict p) [])
  end.
  - reflexivity.
  - split; [reflexivity|]. split; [exact N|].
    eexists. split; [reflexivity|]. cbn. apply String.eqb_refl.
  - reflexivity.
Qed.

Lemma get_after_create_witness :
  none_with_id (records Desk.site) (uuid4 Desk.site (uuids_drawn Desk.site)) /\
  exists (p : Purchase) (s1 : Site),
    create_purchase (VStr "Desk") (VInt 1) (VStr "Flo") VNone (VStr "") Desk.site
    = (Return p, s1) /\
    id p = VStr (uuid4 Desk.site (uuids_drawn Desk.site)) /\
    status p = VStr "pending" /\ approver p = VNone /\
    records s1 = records Desk.site ++ [to_dict p] /\
    fst (get_purchase (uuid4 Desk.site (uuids_drawn Desk.site)) s1)
    = Return (Some p).
Proof.
  assert (N : none_with_id (records Desk.site)
                (uuid4 Desk.site (uuids_drawn Desk.site))).
  { intros q [<-|[<-|[]]]; eexists; (split; [reflexivity|reflexivity]). }
  split; [exact N|].
  exact (get_after_create (VStr "Desk") (VInt 1) (VStr "Flo") VNone (VStr "")
           Desk.site N).
Defined.

Lemma from_dicts_frame (purchases : list Dict) (s : Site) :
  purchases_file (snd (from_dicts purchases s)) = purchases_file s /\
  printed (snd (from_dicts purchases s)) = printed s.
Proof.
  revert s. induction purchases as [|q rest IH]; intro s.
  - split; reflexivity.
  - assert (E : from_dicts (q :: rest) s
                 = match from_dict q s with
                   | (Return x, s1) =>
                       match from_dicts rest s1 with
                       | (Return xs, s2) => (Return (x :: xs), s2)
                       | (Raise e, s2) => (Raise e, s2)
                       end
                   | (Raise e, s1) => (Raise e, s1)
                   end) by reflexivity.
    rewrite E. clear E.
    pose proof (from_dict_frame q s) as [F1 F2].
    destruct (from_dict q s) as [[x|e] s1]; cbn [fst snd] in *; [|auto].
    destruct (IH s1) as [G1 G2].
    destruct (from_dicts rest s1) as [[xs|e] s2]; cbn [fst snd] in *;
      split; congruence.
Qed.

(** X13.  Looking up never writes: [get_purchase] and [list_purchases] leave
    the purchases file (absent or not) and the console as they were, also
    when they raise. *)
Theorem lookups_read_only (rid : string) (s : Site) :
  (purchases_file (snd (get_purchase rid s)) = purchases_file s /\
   printed (snd (get_purchase rid s)) = printed s) /\
  (purchases_file (snd (list_purchases s)) = purchases_file s /\
   printed (snd (list_purchases s)) = printed s).
Proof.
  split.
  - unfold get_purchase, bind at 1, load_data. apply get_loop_frame.
  - unfold list_purchases, bind at 1, load_data. apply from_dicts_frame.
Qed.

(* ------------------------------------------------------------------ *)
(** ** Updating and deleting *)

Lemma stamped_protected (updates p : Dict) (stamp k : string) :
  protected k = true -> dict_get (stamped updates p stamp) k = dict_get p k.
Proof.
  intro P. unfold stamped. rewrite dict_get_set_other.
  - now apply apply_updates_protected.
  - intros <-. unfold protected in P. cbn in P. discriminate.
Qed.

Lemma stamped_has (updates p : Dict) (stamp k : string) :
  dict_has (stamped updates p stamp) k
  = dict_has p k || String.eqb "updated_at" k.
Proof. unfold stamped. now rewrite dict_has_set, apply_updates_has. Qed.

Lemma update_purchase_cases (rid : string) (updates : Dict) (s : Site) :
  snd (update_purchase rid updates s) = s \/
  exists before p after,
    first_with_id (records s) rid before p after /\
    purchases_file (snd (update_purchase rid updates s))
    = Some (before ++ stamped updates p (now s (clock_reads s)) :: after).
Proof.
  unfold update_purchase, bind at 1, load_data. fold (records s).
  apply (update_loop_cases (records s) rid updates [] s).
Qed.

Lemma update_purchase_found (rid : string) (updates : Dict) (s : Site)
  (before : list Dict) (p : Dict) (after : list Dict) :
  first_with_id (records s) rid before p after ->
  update_purchase rid updates s
  = bind (from_dict (stamped updates p (now s (clock_reads s))))
      (fun purchase => ret (Some purchase))
      (after_save (before ++ stamped updates p (now s (clock_reads s)) :: after) s).
Proof.
  intro F. unfold update_purchase, bind at 1, load_data. fold (records s).
  now rewrite (update_loop_found _ _ _ _ _ _ F).
Qed.

(** X14.  [update_purchase] never changes an identifier or a creation date,
    whatever the updates name: after the call the file has the same number
    of records, with the same ['id'] and ['created_at'] at every position. *)
Theorem update_purchase_keeps_identity (rid : string) (updates : Dict) (s : Site) :
  let s' := snd (update_purchase rid updates s) in
  List.length (records s') = List.length (records s) /\
  map (fun d => dict_get d "id") (records s')
  = map (fun d => dict_get d "id") (records s) /\
  map (fun d => dict_get d "created_at") (records s')
  = map (fun d => dict_get d "created_at") (records s).
Proof.
  cbv zeta.
  destruct (update_purchase_cases rid updates s)
    as [E|(before & p & after & (E & _) & F)].
  - rewrite E. auto.
  - unfold records at 1 3 5. rewrite F, E.
    rewrite !length_app, !map_app. cbn [List.length map].
    rewrite !stamped_protected by reflexivity. auto.
Qed.

Lemma apply_updates_applied (updates p : Dict) (k : string) (v : Value) :
  NoDup (map fst updates) -> In (k, v) updates ->
  dict_has p k = true -> protected k = false ->
  dict_get (apply_updates p updates) k = Some v.
Proof.
  revert p. induction updates as [|[k0 v0] updates IH]; intros p ND I H P.
  - destruct I.
  - cbn [map fst] in ND. inversion ND as [|? ? Hnotin ND']; subst.
    cbn [apply_updates]. destruct I as [I|I].
    + injection I as -> ->. rewrite H, P. cbn.
      rewrite apply_updates_untouched by exact Hnotin.
      apply dict_get_set_same.
    + destruct (dict_has p k0 && negb (protected k0)).
      * apply IH; auto. rewrite dict_has_set, H. reflexivity.
      * apply IH; auto.
Qed.

(** X15.  When the identifier is found, [update_purchase] rewrites the first
    record that carries it and nothing else: the records before and after
    are kept, in order.  In the rewritten record every key that is already
    present, is named by the updates and is neither ['id'] nor
    ['created_at'] takes the new value; ['updated_at'] is the time of the
    call; no other key appears, and a key the updates do not name keeps its
    value. *)
Theorem update_purchase_effect (rid : string) (updates : Dict) (s : Site)
  (before : list Dict) (p : Dict) (after : list Dict) :
  first_with_id (records s) rid before p after ->
  NoDup (map fst updates) ->
  exists p' : Dict,
    records (snd (update_purchase rid updates s)) = before ++ p' :: after /\
    dict_get p' "updated_at" = Some (VStr (now s (clock_reads s))) /\
    (forall k, dict_has p' k = dict_has p k || String.eqb "updated_at" k) /\
    (forall k v, In (k, v) updates -> dict_has p k = true ->
       protected k = false -> k <> "updated_at" -> dict_get p' k = Some v) /\
    (forall k, ~ In k (map fst updates) -> k <> "updated_at" ->
       dict_get p' k = dict_get p k).
Proof.
  intros F ND. exists (stamped updates p (now s (clock_reads s))).
  split; [|split; [|split; [|split]]].
  - rewrite (update_purchase_found _ _ _ _ _ _ F). unfold bind.
    pose proof (from_dict_frame (stamped updates p (now s (clock_reads s)))
      (after_save (before ++ stamped updates p (now s (clock_reads s)) :: after) s))
      as [G _].
    destruct (from_dict _ _) as [[x|e] s1]; unfold ret; cbn [snd] in *;
      unfold records; rewrite G; reflexivity.
  - unfold stamped. apply dict_get_set_same.
  - intro k. apply stamped_has.
  - intros k v I H P N. unfold stamped.
    rewrite dict_get_set_other by congruence.
    now apply apply_updates_applied.
  - intros k I N. unfold stamped.
    rewrite dict_get_set_other by congruence.
    now apply apply_updates_untouched.
Qed.

Lemma paper_first_match :
  first_with_id (records Desk.site) "p-paper" [] (to_dict Desk.paper)
    [to_dict Desk.chairs].
Proof.
  split; [reflexivity|]. split; [intros q []|].
  eexists. split; reflexivity.
Qed.

Lemma chairs_first_match :
  first_with_id (records Desk.site) "p-chairs" [to_dict Desk.paper]
    (to_dict Desk.chairs) [].
Proof.
  split; [reflexivity|]. split.
  - intros q [<-|[]]. eexists. split; reflexivity.
  - eexists. split; reflexivity.
Qed.

Lemma update_purchase_effect_witness :
  first_with_id (records Desk.site) "p-chairs" [to_dict Desk.paper]
    (to_dict Desk.chairs) [] /\
  NoDup (map fst [("quantity", VInt 6); ("colour", VStr "red")]) /\
  exists p' : Dict,
    records (snd (update_purchase "p-chairs"
                    [("quantity", VInt 6); ("colour", VStr "red")] Desk.site))
    = [to_dict Desk.paper] ++ p' :: [] /\
    dict_get p' "quantity" = Some (VInt 6) /\
    dict_has p' "colour" = false.
Proof.
  assert (ND : NoDup (map fst [("quantity", VInt 6); ("colour", VStr "red")])).
  { cbn. constructor; [intros [H|[]]; discriminate H|].
    constructor; [intros []|constructor]. }
  split; [exact chairs_first_match|]. split; [exact ND|].
  destruct (update_purchase_effect "p-chairs"
              [("quantity", VInt 6); ("colour", VStr "red")] Desk.site
              _ _ _ chairs_first_match ND) as (p' & R & _ & K & A & _).
  exists p'. split; [exact R|]. split.
  - apply (A "quantity" (VInt 6)); [now left | reflexivity | reflexivity | discriminate].
  - rewrite K. reflexivity.
Defined.

(** X16.  With an identifier that no record carries, [update_purchase]
    returns [None] and changes nothing: no file is written and the clock is
    not read. *)
Theorem update_purchase_unknown (rid : string) (updates : Dict) (s : Site) :
  none_with_id (records s) rid ->
  update_purchase rid updates s = (Return None, s).
Proof.
  intro N. unfold update_purchase, bind, load_data. fold (records s).
  now apply update_loop_missing.
Qed.

Lemma unknown_has_no_record : none_with_id (records Desk.site) "p-unknown".
Proof.
  intros q [<-|[<-|[]]]; eexists; (split; [reflexivity|reflexivity]).
Qed.

Lemma update_purchase_unknown_witness :
  none_with_id (records Desk.site) "p-unknown" /\
  update_purchase "p-unknown" [("status", VStr "approved")] Desk.site
  = (Return None, Desk.site).
Proof.
  split; [exact unknown_has_no_record|].
  exact (update_purchase_unknown "p-unknown" [("status", VStr "approved")]
           Desk.site unknown_has_no_record).
Defined.

(** X17.  [update_purchase] saves before it rebuilds the object: when the
    matched record lacks one of the required keys other than
    ['updated_at'], the call raises [KeyError] although the file has already
    been rewritten with the updated record. *)
Theorem update_purchase_saves_before_failing (rid : string) (updates : Dict)
  (s : Site) (before : list Dict) (p : Dict) (after : list Dict) (k : string) :
  first_with_id (records s) rid before p after ->
  In k required_keys -> k <> "updated_at" -> dict_has p k = false ->
  fst (update_purchase rid updates s) = Raise "KeyError" /\
  records (snd (update_purchase rid updates s))
  = before ++ stamped updates p (now s (clock_reads s)) :: after.
Proof.
  intros F I N H.
  assert (W : well_formed (stamped updates p (now s (clock_reads s))) = false).
  { unfold well_formed. apply not_true_is_false. intro W.
    rewrite forallb_forall in W. specialize (W k I).
    rewrite stamped_has, H in W. cbn [orb] in W.
    apply String.eqb_eq in W. congruence. }
  rewrite (update_purchase_found _ _ _ _ _ _ F). unfold bind.
  pose proof (from_dict_ill_formed _
    (after_save (before ++ stamped updates p (now s (clock_reads s)) :: after) s) W)
    as R.
  pose proof (from_dict_frame (stamped updates p (now s (clock_reads s)))
    (after_save (before ++ stamped updates p (now s (clock_reads s)) :: after) s))
    as [G _].
  destruct (from_dict _ _) as [[x|e] s1]; cbn [fst snd] in *; [discriminate R|].
  split; [now injection R as ->|]. cbn [snd]. unfold records. rewrite G. reflexivity.
Qed.

Lemma broken_first_match :
  first_with_id (records Desk.site_with_broken) "p-broken" [to_dict Desk.paper]
    Desk.broken [].
Proof.
  split; [reflexivity|]. split.
  - intros q [<-|[]]. eexists. split; reflexivity.
  - eexists. split; reflexivity.
Qed.

Lemma update_purchase_saves_before_failing_witness :
  first_with_id (records Desk.site_with_broken) "p-broken" [to_dict Desk.paper]
    Desk.broken [] /\
  In "status" required_keys /\ "status" <> "updated_at" /\
  dict_has Desk.broken "status" = false /\
  fst (update_purchase "p-broken" [("quantity", VInt 3)] Desk.site_with_broken)
  = Raise "KeyError" /\
  records (snd (update_purchase "p-broken" [("quantity", VInt 3)]
                  Desk.site_with_broken))
  = [to_dict Desk.paper]
    ++ stamped [("quantity", VInt 3)] Desk.broken
         (now Desk.site_with_broken (clock_reads Desk.site_with_broken)) :: [].
Proof.
  assert (I : In "status" required_keys) by (cbn; tauto).
  assert (N : "status" <> "updated_at") by discriminate.
  assert (H : dict_has Desk.broken "status" = false) by reflexivity.
  split; [exact broken_first_match|]. split; [exact I|]. split; [exact N|].
  split; [exact H|].
  exact (update_purchase_saves_before_failing "p-broken" [("quantity", VInt 3)]
           Desk.site_with_broken _ _ _ "status" broken_first_match I N H).
Defined.

(** X18.  [delete_purchase] removes exactly the first record that carries
    the identifier and returns [True]; the other records stay, in order.
    With an identifier that no record carries it returns [False] and
    changes nothing. *)
Theorem delete_purchase_effect (rid : string) (s : Site) :
  (forall before p after,
     first_with_id (records s) rid before p after ->
     fst (delete_purchase rid s) = Return true /\
     records (snd (delete_purchase rid s)) = before ++ after /\
     printed (snd (delete_purchase rid s)) = printed s) /\
  (none_with_id (records s) rid -> delete_purchase rid s = (Return false, s)).
Proof.
  split.
  - intros before p after F.
    unfold delete_purchase, bind, load_data. fold (records s).
    rewrite (delete_loop_found _ _ _ _ _ F). cbn. auto.
  - intro N. unfold delete_purchase, bind, load_data. fold (records s).
    now apply delete_loop_missing.
Qed.

Lemma delete_purchase_effect_witness :
  (first_with_id (records Desk.site) "p-paper" [] (to_dict Desk.paper)
     [to_dict Desk.chairs] /\
   fst (delete_purchase "p-paper" Desk.site) = Return true /\
   records (snd (delete_purchase "p-paper" Desk.site))
   = [] ++ [to_dict Desk.chairs]) /\
  (none_with_id (records Desk.site) "p-unknown" /\
   delete_purchase "p-unknown" Desk.site = (Return false, Desk.site)).
Proof.
  split.
  - split; [exact paper_first_match|].
    destruct (proj1 (delete_purchase_effect "p-paper" Desk.site)
                _ _ _ paper_first_match) as (R & E & _).
    split; [exact R | exact E].
  - split; [exact unknown_has_no_record|].
    exact (proj2 (delete_purchase_effect "p-unknown" Desk.site) unknown_has_no_record).
Defined.

(* ------------------------------------------------------------------ *)
(** ** Approval workflow *)

Lemma decoded_status (p : Dict) (st : Value) :
  dict_get p "status" = Some st -> status (decoded p) = st.
Proof. intro E. cbn. now apply dict_get_default_some. Qed.

Lemma decide_unknown (decision : string) (message : Value -> Line)
  (rid : string) (a n : Value) (s : Site) :
  none_with_id (records s) rid ->
  decide decision message rid a n s
  = (Return None,
     mkSite (purchases_file s) (printed s ++ [not_found_error rid]) (uuid4 s)
       (uuids_drawn s) (now s) (clock_reads s)).
Proof.
  intro N. unfold decide, bind at 1. now rewrite (get_purchase_missing s rid N).
Qed.

Lemma decide_settled (decision : string) (message : Value -> Line)
  (rid : string) (a n : Value) (s : Site)
  (before : list Dict) (p : Dict) (after : list Dict) (st : Value) :
  first_with_id (records s) rid before p after -> well_formed p = true ->
  dict_get p "status" = Some st -> eq_str st "pending" = false ->
  decide decision message rid a n s
  = (Return (Some (decoded p)),
     mkSite (purchases_file s) (printed s ++ [already_warning st]) (uuid4 s)
       (S (uuids_drawn s)) (now s) (S (clock_reads s))).
Proof.
  intros F W E P. unfold decide, bind at 1.
  rewrite (get_purchase_found s rid _ _ _ F W).
  rewrite (decoded_status p st E), P. reflexivity.
Qed.

Lemma well_formed_stamped (updates p : Dict) (stamp : string) :
  well_formed p = true -> well_formed (stamped updates p stamp) = true.
Proof.
  unfold well_formed. rewrite !forallb_forall. intros W k I.
  rewrite stamped_has, (W k I). reflexivity.
Qed.

Lemma decide_pending (decision : string) (message : Value -> Line)
  (rid : string) (a n : Value) (s : Site)
  (before : list Dict) (p : Dict) (after : list Dict) :
  first_with_id (records s) rid before p after -> well_formed p = true ->
  dict_get p "status" = Some (VStr "pending") ->
  decide decision message rid a n s
  = (Return (Some (decoded (decided decision a n p s))),
     mkSite (Some (before ++ decided decision a n p s :: after))
       (printed s ++ [message a]) (uuid4 s) (S (S (uuids_drawn s))) (now s)
       (S (S (S (S (clock_reads s)))))).
Proof.
  intros F W E. unfold decide, bind at 1.
  rewrite (get_purchase_found s rid _ _ _ F W).
  rewrite (decoded_status p _ E). cbn [eq_str String.eqb Ascii.eqb Bool.eqb negb].
  unfold bind at 1, read_clock. cbn [now clock_reads after_init].
  unfold bind at 1.
  match goal with
  | |- context [update_purchase rid ?u ?s2] =>
      rewrite (update_purchase_found rid u s2 before p after F)
  end.
  unfold bind at 1. cbn [now clock_reads].
  fold (decision_updates decision a n s). fold (decided decision a n p s).
  rewrite from_dict_well_formed
    by (unfold decided; now apply well_formed_stamped).
  reflexivity.
Qed.



Lemma decided_purchase_is_final_aux (rid : string) (a n : Value) (s : Site)
  (before : list Dict) (p : Dict) (after : list Dict) (st : Value) :
  first_with_id (records s) rid before p after -> well_formed p = true ->
  dict_get p "status" = Some st -> eq_str st "pending" = false ->
  forall call, call = approve_purchase \/ call = reject_purchase ->
    exists purchase : Purchase,
      fst (call rid a n s) = Return (Some purchase) /\
      status purchase = st /\
      purchases_file (snd (call rid a n s)) = purchases_file s.
Proof.
  intros F W E P call [->| ->]; exists (decoded p);
    unfold approve_purchase, reject_purchase;
    rewrite (decide_settled _ _ _ _ _ _ _ _ _ _ F W E P);
    cbn [fst snd purchases_file];
    (split; [reflexivity|]); (split; [now apply decoded_status|]); reflexivity.
Qed.



Lemma decided_status (decision : string) (a n : Value) (p : Dict) (s : Site) :
  dict_has p "status" = true ->
  dict_get (decided decision a n p s) "status" = Some (VStr decision).
Proof.
  intro H. unfold decided, stamped.
  rewrite dict_get_set_other by discriminate.
  apply apply_updates_applied; [| now left | exact H | reflexivity].
  cbn. repeat constructor; cbn; intuition discriminate.
Qed.


Lemma first_with_id_replace (purchases : list Dict) (rid : string)
  (before : list Dict) (p p' : Dict) (after : list Dict) :
  first_with_id purchases rid before p after ->
  dict_get p' "id" = dict_get p "id" ->
  first_with_id (before ++ p' :: after) rid before p' after.
Proof.
  intros (_ & Hb & Hp) E. split; [reflexivity|]. split; [exact Hb|].
  now rewrite E.
Qed.



(** X22.  Once a pending purchase has been approved or rejected, no later
    [approve_purchase] or [reject_purchase] on it changes the file: the
    second call finds the first decision and returns the purchase with
    it. *)
Theorem no_second_decision (rid : string) (a n a2 n2 : Value) (s : Site)
  (before : list Dict) (p : Dict) (after : list Dict) :
  first_with_id (records s) rid before p after -> well_formed p = true ->
  dict_get p "status" = Some (VStr "pending") ->
  forall first decision second,
    (first = approve_purchase /\ decision = "approved") \/
    (first = reject_purchase /\ decision = "rejected") ->
    second = approve_purchase \/ second = reject_purchase ->
    let s1 := snd (first rid a n s) in
    exists purchase : Purchase,
      fst (second rid a2 n2 s1) = Return (Some purchase) /\
      status purchase = VStr decision /\
      purchases_file (snd (second rid a2 n2 s1)) = purchases_file s1.
Proof.
  intros F W E first decision second C1 C2. cbv zeta.
  assert (Hs : dict_has p "status" = true) by (unfold dict_has; now rewrite E).
  assert (R : exists message,
             first rid a n s = decide decision message rid a n s).
  { destruct C1 as [(-> & ->)|(-> & ->)]; eexists; reflexivity. }
  destruct R as (message & R).
  rewrite R, (decide_pending _ _ _ _ _ _ _ _ _ F W E). cbn [snd].
  set (p' := decided decision a n p s).
  set (s1 := mkSite _ _ _ _ _ _).
  assert (F1 : first_with_id (records s1) rid before p' after).
  { apply (first_with_id_replace _ _ _ p _ _ F).
    apply stamped_protected. reflexivity. }
  assert (W1 : well_formed p' = true)
    by (unfold p', decided; now apply well_formed_stamped).
  assert (E1 : dict_get p' "status" = Some (VStr decision))
    by now apply decided_status.
  assert (P1 : eq_str (VStr decision) "pending" = false)
    by (destruct C1 as [(_ & ->)|(_ & ->)]; reflexivity).
  destruct (decided_purchase_is_final_aux rid a2 n2 s1 _ _ _ _ F1 W1 E1 P1
              second C2) as (purchase & Q1 & Q2 & Q3).
  exists purchase. auto.
Qed.

Lemma no_second_decision_witness :
  first_with_id (records Desk.site) "p-paper" [] (to_dict Desk.paper)
    [to_dict Desk.chairs] /\
  well_formed (to_dict Desk.paper) = true /\
  dict_get (to_dict Desk.paper) "status" = Some (VStr "pending") /\
  exists purchase : Purchase,
    fst (reject_purchase "p-paper" (VStr "Yan") (VStr "late")
           (snd (approve_purchase "p-paper" (VStr "Zed") (VStr "fine") Desk.site)))
    = Return (Some purchase) /\
    status purchase = VStr "approved" /\
    purchases_file
      (snd (reject_purchase "p-paper" (VStr "Yan") (VStr "late")
              (snd (approve_purchase "p-paper" (VStr "Zed") (VStr "fine")
                      Desk.site))))
    = purchases_file
        (snd (approve_purchase "p-paper" (VStr "Zed") (VStr "fine") Desk.site)).
Proof.
  assert (W : well_formed (to_dict Desk.paper) = true) by reflexivity.
  assert (E : dict_get (to_dict Desk.paper) "status" = Some (VStr "pending"))
    by reflexivity.
  split; [exact paper_first_match|]. split; [exact W|]. split; [exact E|].
  exact (no_second_decision "p-paper" (VStr "Zed") (VStr "fine") (VStr "Yan")
           (VStr "late") Desk.site _ _ _ paper_first_match W E
           approve_purchase "approved" reject_purchase
           (or_introl (conj eq_refl eq_refl)) (or_intror eq_refl)).
Defined.

(* ------------------------------------------------------------------ *)
(** ** Sequences of decisions *)

Lemma first_with_id_head_id (x : Dict) (rest : list Dict) (rid : string)
  (before : list Dict) (p : Dict) (after : list Dict) :
  first_with_id (x :: rest) rid before p after ->
  exists v, dict_get x "id" = Some v.
Proof.
  intros (E & Hb & v & Hp & _).
  destruct before as [|b before]; cbn in E; injection E as E1 E2.
  - subst x. eauto.
  - subst b. destruct (Hb x (or_introl eq_refl)) as (w & Hw & _). eauto.
Qed.

Lemma first_with_id_unique (purchases : list Dict) (rid : string)
  (b1 : list Dict) (p1 : Dict) (a1 b2 : list Dict) (p2 : Dict) (a2 : list Dict) :
  first_with_id purchases rid b1 p1 a1 -> first_with_id purchases rid b2 p2 a2 ->
  b1 = b2 /\ p1 = p2 /\ a1 = a2.
Proof.
  revert b1 b2. induction purchases as [|x rest IH]; intros b1 b2 F1 F2.
  - destruct F1 as (E & _). destruct b1; discriminate E.
  - destruct (first_with_id_head_id _ _ _ _ _ _ F1) as (v & Hx).
    destruct (eq_str v rid) eqn:Hv.
    + destruct (first_with_id_head _ _ _ _ _ _ _ Hx Hv F1) as (-> & -> & ->).
      destruct (first_with_id_head _ _ _ _ _ _ _ Hx Hv F2) as (-> & -> & ->).
      auto.
    + destruct (first_with_id_cons_other _ _ _ _ _ _ _ Hx Hv F1) as (c1 & -> & G1).
      destruct (first_with_id_cons_other _ _ _ _ _ _ _ Hx Hv F2) as (c2 & -> & G2).
      destruct (IH _ _ G1 G2) as (-> & -> & ->). auto.
Qed.

Lemma first_with_id_cons (x : Dict) (v : Value) (rest : list Dict) (rid : string)
  (before : list Dict) (p : Dict) (after : list Dict) :
  dict_get x "id" = Some v -> eq_str v rid = false ->
  first_with_id rest rid before p after ->
  first_with_id (x :: rest) rid (x :: before) p after.
Proof.
  intros Hx Hv (E & Hb & Hp). split; [cbn; now rewrite E|].
  split; [|exact Hp]. intros q [<-|Hq]; [eauto | now apply Hb].
Qed.

Lemma eq_str_true (v : Value) (s : string) : eq_str v s = true -> v = VStr s.
Proof.
  destruct v; try discriminate. cbn. intro H. apply String.eqb_eq in H.
  now subst.
Qed.

(** Rewriting the record of another identifier, with its ['id'] kept, does
    not disturb the first match of [rid]. *)
Lemma first_with_id_other_rewritten (purchases : list Dict) (rid rid2 : string)
  (q' : Dict) :
  rid <> rid2 ->
  forall (before : list Dict) (p : Dict) (after b2 : list Dict) (q : Dict)
         (a2 : list Dict),
    first_with_id purchases rid before p after ->
    first_with_id purchases rid2 b2 q a2 ->
    dict_get q' "id" = dict_get q "id" ->
    exists before' after', first_with_id (b2 ++ q' :: a2) rid before' p after'.
Proof.
  intro N. induction purchases as [|x rest IH];
    intros before p after b2 q a2 F F2 E.
  - destruct F as (E0 & _). destruct before; discriminate E0.
  - destruct (first_with_id_head_id _ _ _ _ _ _ F) as (v & Hx).
    destruct (eq_str v rid) eqn:Hv.
    + destruct (first_with_id_head _ _ _ _ _ _ _ Hx Hv F) as (-> & -> & ->).
      assert (Hv2 : eq_str v rid2 = false).
      { apply eq_str_true in Hv. subst v. cbn. now apply String.eqb_neq. }
      destruct (first_with_id_cons_other _ _ _ _ _ _ _ Hx Hv2 F2) as (c2 & -> & G2).
      exists [], (c2 ++ q' :: a2). split; [reflexivity|].
      split; [intros ? []|]. exists v. auto.
    + destruct (first_with_id_cons_other _ _ _ _ _ _ _ Hx Hv F) as (c & -> & G).
      destruct (eq_str v rid2) eqn:Hv2.
      * destruct (first_with_id_head _ _ _ _ _ _ _ Hx Hv2 F2) as (-> & -> & ->).
        exists (q' :: c), after. cbn [app].
        apply (first_with_id_cons q' v); [congruence | exact Hv | exact G].
      * destruct (first_with_id_cons_other _ _ _ _ _ _ _ Hx Hv2 F2) as (c2 & -> & G2).
        destruct (IH _ _ _ _ _ _ G G2 E) as (b' & a' & G').
        exists (x :: b'), a'. cbn [app].
        now apply (first_with_id_cons x v).
Qed.

Lemma scan_cases (purchases : list Dict) (rid : string) :
  (exists before p after, first_with_id purchases rid before p after) \/
  none_with_id purchases rid \/ unreadable purchases rid.
Proof.
  induction purchases as [|x rest IH].
  - right. left. intros ? [].
  - destruct (dict_get x "id") as [v|] eqn:Hx.
    + destruct (eq_str v rid) eqn:Hv.
      * left. exists [], x, rest. split; [reflexivity|].
        split; [intros ? []|eauto].
      * destruct IH as [(b & p & a & F)|[M|(b & q & a & E & Hb & Hq)]].
        -- left. exists (x :: b), p, a. now apply (first_with_id_cons x v).
        -- right. left. intros y [<-|Hy]; [eauto | now apply M].
        -- right. right. exists (x :: b), q, a. split; [cbn; now rewrite E|].
           split; [|exact Hq]. intros y [<-|Hy]; [eauto | now apply Hb].
    + right. right. exists [], x, rest. split; [reflexivity|].
      split; [intros ? []|exact Hx].
Qed.

Lemma get_loop_unreadable (purchases : list Dict) (rid : string) (s : Site) :
  unreadable purchases rid -> get_loop purchases rid s = (Raise "KeyError", s).
Proof.
  intros (before & q & after & -> & Hb & Hq).
  induction before as [|x before IH]; cbn [app]; rewrite get_loop_cons.
  - now rewrite Hq.
  - destruct (Hb x (or_introl eq_refl)) as (v & Hx & Hv). rewrite Hx, Hv.
    apply IH. intros y Hy. apply Hb. now right.
Qed.

(** A decision either leaves the file as it is or rewrites the record of a
    pending, well-formed first match. *)
Lemma decide_cases (decision : string) (message : Value -> Line)
  (rid : string) (a n : Value) (s : Site) :
  purchases_file (snd (decide decision message rid a n s)) = purchases_file s \/
  exists before p after,
    first_with_id (records s) rid before p after /\
    dict_get p "status" = Some (VStr "pending") /\
    purchases_file (snd (decide decision message rid a n s))
    = Some (before ++ decided decision a n p s :: after).
Proof.
  destruct (scan_cases (records s) rid) as [(b & p & af & F)|[M|U]].
  - destruct (well_formed p) eqn:W.
    + destruct (well_formed_keys p W)
        as (_ & _ & _ & _ & st & _ & _ & _ & _ & _ & _ & E & _).
      destruct (eq_str st "pending") eqn:P.
      * apply eq_str_true in P. subst st. right. exists b, p, af.
        split; [exact F|]. split; [exact E|].
        now rewrite (decide_pending _ _ _ _ _ _ _ _ _ F W E).
      * left. now rewrite (decide_settled _ _ _ _ _ _ _ _ _ _ F W E P).
    + left. unfold decide, bind at 1, get_purchase, bind at 1, load_data.
      fold (records s). rewrite (get_loop_found _ _ _ _ _ _ F). unfold bind.
      pose proof (from_dict_ill_formed p s W) as R.
      pose proof (from_dict_frame p s) as [G _].
      destruct (from_dict p s) as [[x|e] s1]; cbn [fst snd] in *;
        [discriminate R | exact G].
  - left. now rewrite (decide_unknown _ _ _ _ _ _ M).
  - left. unfold decide, bind at 1, get_purchase, bind at 1, load_data.
    fold (records s). now rewrite (get_loop_unreadable _ _ _ U).
Qed.

Lemma perform_decide (r : Request) :
  exists decision message rid a n,
    perform r = decide decision message rid a n.
Proof.
  destruct r as [rid a n|rid a n]; repeat eexists; reflexivity.
Qed.

(** X23.  The status of a decided purchase survives every sequence of
    approvals and rejections, on it or on other purchases: the record that
    is the first match of its identifier, with a status other than
    "pending", is still the first match, unchanged, after the sequence. *)
Theorem decided_purchase_survives (requests : list Request) :
  forall (s : Site) (rid : string) (before : list Dict) (p : Dict)
         (after : list Dict) (st : Value),
    first_with_id (records s) rid before p after ->
    dict_get p "status" = Some st -> eq_str st "pending" = false ->
    exists before' after',
      first_with_id (records (perform_all requests s)) rid before' p after'.
Proof.
  induction requests as [|r requests IH]; intros s rid before p after st F E P.
  - cbn. eauto.
  - cbn [perform_all].
    assert (K : exists before' after',
               first_with_id (records (snd (perform r s))) rid before' p after').
    { destruct (perform_decide r) as (decision & message & rid2 & a & n & ->).
      destruct (decide_cases decision message rid2 a n s)
        as [U|(b2 & q & a2 & F2 & E2 & U)].
      - unfold records. rewrite U. fold (records s). eauto.
      - unfold records at 1. rewrite U.
        destruct (String.eqb rid rid2) eqn:R.
        + apply String.eqb_eq in R. subst rid2.
          destruct (first_with_id_unique _ _ _ _ _ _ _ _ F F2) as (_ & -> & _).
          rewrite E in E2. injection E2 as ->. discriminate P.
        + apply String.eqb_neq in R.
          apply (first_with_id_other_rewritten _ _ _ _ R _ _ _ _ _ _ F F2).
          apply stamped_protected. reflexivity. }
    destruct K as (b' & a' & F').
    now apply (IH _ _ _ _ _ _ F' E P).
Qed.

Lemma decided_purchase_survives_witness :
  first_with_id (records Desk.site) "p-chairs" [to_dict Desk.paper]
    (to_dict Desk.chairs) [] /\
  dict_get (to_dict Desk.chairs) "status" = Some (VStr "approved") /\
  eq_str (VStr "approved") "pending" = false /\
  exists before' after',
    first_with_id
      (records (perform_all
                  [ Reject "p-chairs" (VStr "Zed") (VStr "no");
                    Approve "p-paper" (VStr "Zed") (VStr "yes");
                    Reject "p-chairs" (VStr "Yan") (VStr "late") ]
                  Desk.site))
      "p-chairs" before' (to_dict Desk.chairs) after'.
Proof.
  assert (E : dict_get (to_dict Desk.chairs) "status" = Some (VStr "approved"))
    by reflexivity.
  assert (P : eq_str (VStr "approved") "pending" = false) by reflexivity.
  split; [exact chairs_first_match|]. split; [exact E|]. split; [exact P|].
  exact (decided_purchase_survives _ Desk.site _ _ _ _ _ chairs_first_match E P).
Defined.

End StoreFacts.
